(** * gcp-rss-notifier: the channel processor and the item processor

    A shallow embedding of the two Go cloud functions

      - [src/list-channels/function.go]  (its second unit: [processChannel],
        [publishItem], [removeOldItems]) and
      - [src/process-item/function.go]   (its first unit: [processItem],
        [notify], [htmlToMarkdown] with the anchor rule, [save]),

    together with the properties of their pipeline: deduplication against
    the record store, fan-out with a failure tally, the anchor rule of the
    HTML conversion, the length bound and the write-after-send ordering.

    Go strings are byte sequences; they are modelled by [string], whose
    characters are the 8-bit [ascii] values, so [String.length] is Go's
    [len] and every index below counts bytes. *)

From Stdlib Require Import String Ascii ZArith Lia.
From stdpp Require Import gmap strings list fin_maps.

Local Open Scope string_scope.

(** ** Errors *)

(** Go [error] values.  [fmt.Errorf] flattens its cause into text; the
    structure is kept here so that each return site stays recognisable. *)
Inductive error : Type :=
| External (what : string)
    (* an error handed back by a library or by the platform *)
| Wrapped (context : string) (cause : error)
    (* fmt.Errorf("<context>: %v", err) *)
| NotPublished (failed total : Z)
    (* fmt.Errorf("%d of %d messages did not publish successfuly", ..) *)
| ResponseStatus (status body : string)
    (* fmt.Errorf("response status: %s, %v", resp.Status, string(b)) *)
| Panic (what : string).
    (* a run-time panic; it ends the invocation like a returned error *)

(** ** Go runtime and standard library pieces used by the functions *)

Module Go.

(** Characters that cannot be typed inside a literal here. *)
Definition nl : string := String "010"%char EmptyString.
Definition dquote : string := String "034"%char EmptyString.
Definition backslash : string := String "092"%char EmptyString.

(** [len(s)]. *)
Definition len (s : string) : nat := String.length s.

(** [s[:n]]: the first [n] bytes; out of range it panics. *)
Definition slice_to (n : nat) (s : string) : error + string :=
  if (n <=? len s)%nat then inr (String.substring 0 n s)
  else inl (Panic "slice bounds out of range").

(** [strings.Replace(s, old, new, -1)] for a one-byte [old]. *)
Fixpoint Replace (s : string) (old : ascii) (new : string) : string :=
  match s with
  | EmptyString => EmptyString
  | String c rest =>
      if Ascii.eqb c old then new +:+ Replace rest old new
      else String c (Replace rest old new)
  end.

(** White space as [unicode.IsSpace] sees it, on the UTF-8 bytes of the
    string: the six ASCII ones, U+0085, U+00A0, U+1680, U+2000..U+200A,
    U+2028, U+2029, U+202F, U+205F and U+3000.  [space_prefix bs] is the
    number of bytes taken by a white-space rune that starts [bs], [0] if
    there is none. *)
Definition is_ascii_space (c : ascii) : bool :=
  let n := nat_of_ascii c in
  ((n =? 9) || (n =? 10) || (n =? 11) || (n =? 12) || (n =? 13) || (n =? 32))%nat.

Definition space_prefix (bs : list nat) : nat :=
  match bs with
  | 194 :: 133 :: _ => 2
  | 194 :: 160 :: _ => 2
  | 225 :: 154 :: 128 :: _ => 3
  | 226 :: 128 :: b :: _ =>
      if ((128 <=? b) && (b <=? 138))%nat then 3
      else if ((b =? 168) || (b =? 169) || (b =? 175))%nat then 3 else 0
  | 226 :: 129 :: 159 :: _ => 3
  | 227 :: 128 :: 128 :: _ => 3
  | b :: _ => if is_ascii_space (ascii_of_nat b) then 1 else 0
  | [] => 0
  end.

(** The same, read backwards from the end of the string: [rbs] is the
    reversed byte sequence. *)
Definition space_suffix (rbs : list nat) : nat :=
  match rbs with
  | 133 :: 194 :: _ => 2
  | 160 :: 194 :: _ => 2
  | 128 :: 154 :: 225 :: _ => 3
  | 159 :: 129 :: 226 :: _ => 3
  | 128 :: 128 :: 227 :: _ => 3
  | b :: 128 :: 226 :: _ =>
      if ((128 <=? b) && (b <=? 138))%nat then 3
      else if ((b =? 168) || (b =? 169) || (b =? 175))%nat then 3
      else if is_ascii_space (ascii_of_nat b) then 1 else 0
  | b :: _ => if is_ascii_space (ascii_of_nat b) then 1 else 0
  | [] => 0
  end.

Fixpoint trim_with (width : list nat → nat) (fuel : nat) (bs : list nat)
  : list nat :=
  match fuel with
  | O => bs
  | S fuel' =>
      match width bs with
      | O => bs
      | w => trim_with width fuel' (drop w bs)
      end
  end.

Definition bytes_of (s : string) : list nat :=
  nat_of_ascii <$> list_ascii_of_string s.

Definition string_of (bs : list nat) : string :=
  string_of_list_ascii (ascii_of_nat <$> bs).

(** [strings.TrimSpace(s)]: leading, then trailing white space removed. *)
Definition TrimSpace (s : string) : string :=
  let bs := bytes_of s in
  let left := trim_with space_prefix (length bs) bs in
  let right := trim_with space_suffix (length left) (rev left) in
  string_of (rev right).

(** UTF-8 as [unicode/utf8] reads it.  [rune_width bs] is the number of
    bytes of the encoding that starts [bs]; it is [0] when [bs] is empty
    or starts with no encoding (the package then reports [RuneError] of
    width 1). *)
Definition continuation (b : nat) : bool := ((128 <=? b) && (b <=? 191))%nat.

Definition second_byte (b0 b1 : nat) : bool :=
  (if b0 =? 224 then (160 <=? b1) && (b1 <=? 191)
   else if b0 =? 237 then (128 <=? b1) && (b1 <=? 159)
   else if b0 =? 240 then (144 <=? b1) && (b1 <=? 191)
   else if b0 =? 244 then (128 <=? b1) && (b1 <=? 143)
   else continuation b1)%nat.

Definition rune_width (bs : list nat) : nat :=
  match bs with
  | [] => 0
  | b0 :: rest =>
      if (b0 <? 128)%nat then 1
      else if ((194 <=? b0) && (b0 <=? 223))%nat then
        match rest with
        | b1 :: _ => if continuation b1 then 2 else 0
        | _ => 0
        end
      else if ((224 <=? b0) && (b0 <=? 239))%nat then
        match rest with
        | b1 :: b2 :: _ =>
            if second_byte b0 b1 && continuation b2 then 3 else 0
        | _ => 0
        end
      else if ((240 <=? b0) && (b0 <=? 244))%nat then
        match rest with
        | b1 :: b2 :: b3 :: _ =>
            if second_byte b0 b1 && continuation b2 && continuation b3
            then 4 else 0
        | _ => 0
        end
      else 0
  end.





(** [sync/atomic.AddUint64]: addition modulo 2^64. *)
Definition AddUint64 (x delta : Z) : Z := ((x + delta) mod 2 ^ 64)%Z.

End Go.

(** ** The world outside the functions *)

(** A Firestore document: field name to value. *)
Abbreviation Document := (gmap string string).

(** The bytes of a Pub/Sub message or of an HTTP body, seen through
    [encoding/json]: either they do not decode, or they are an object of
    string members (in order; on decoding a later member wins). *)
Inductive Bytes : Type :=
| Malformed
| Encoded (members : list (string * string)).

(** The string that comes out of a JSON text written by [encoding/json]
    for the Go string [s]: the encoder writes each byte that belongs to
    no UTF-8 encoding as U+FFFD. *)
Fixpoint replace_invalid (pending : nat) (bs : list nat) : list nat :=
  match bs with
  | [] => []
  | b :: rest =>
      match pending with
      | S p => b :: replace_invalid p rest
      | O => match Go.rune_width bs with
             | O => (239 :: 191 :: 189 :: replace_invalid 0 rest)%list
             | S w => b :: replace_invalid w rest
             end
      end
  end.

Definition json_string (s : string) : string :=
  Go.string_of (replace_invalid 0 (Go.bytes_of s)).

(** Names of object members are matched with struct fields through
    [foldName]: ASCII letters without regard to case, U+017F as [S] and
    U+212A as [K].  (No other character folds to an ASCII letter, and
    the tags of the structs here are ASCII.) *)
Fixpoint foldName (bs : list nat) : list nat :=
  match bs with
  | 197 :: 191 :: rest => 83 :: foldName rest
  | 226 :: 132 :: 170 :: rest => 75 :: foldName rest
  | b :: rest =>
      (if ((97 <=? b) && (b <=? 122))%nat then b - 32 else b) :: foldName rest
  | [] => []
  end.

Fixpoint same_bytes (bs cs : list nat) : bool :=
  match bs, cs with
  | [], [] => true
  | b :: bs', c :: cs' => (b =? c)%nat && same_bytes bs' cs'
  | _, _ => false
  end.

(** Whether the member named [key] goes to the field tagged [name]. *)
Definition names_field (key name : string) : bool :=
  same_bytes (foldName (Go.bytes_of key)) (foldName (Go.bytes_of name)).

(** What a function invocation does to the outside. *)
Inductive Effect : Type :=
| CallGetAll (ids : list string)               (* firestore: batch read *)
| CallSet (id : string) (fields : Document)    (* firestore: merge write *)
| CallPublish (data : Bytes)                   (* pubsub: topic.Publish *)
| CallPost (url : string) (body : Bytes).      (* http.Post *)

Record World : Type := mkWorld {
  store : gmap string Document;    (* the items collection, by document id *)
  trace : list Effect;             (* effects so far, oldest first *)
}.

Definition emit (ev : Effect) (w : World) : World :=
  {| store := store w; trace := (trace w ++ [ev])%list |}.

(** Orders that Go leaves open: iteration over a map, completion of
    goroutines.  Any rearrangement of the elements may happen. *)
Record Scheduler : Type := mkScheduler {
  order : ∀ A : Type, list A → list A;
  order_perm : ∀ (A : Type) (l : list A), order A l ≡ₚ l;
}.
Arguments order _ {A} _.

(** ** Go-style computations: a world threaded through, an error or a value *)

Definition M (A : Type) : Type := World → (error + A) * World.

Definition ret {A} (a : A) : M A := λ w, (inr a, w).
Definition fail {A} (e : error) : M A := λ w, (inl e, w).

Definition bind {A B} (m : M A) (k : A → M B) : M B :=
  λ w, match m w with
       | (inl e, w') => (inl e, w')
       | (inr a, w') => k a w'
       end.

(** [if err != nil { return fmt.Errorf("<context>: %v", err) }]. *)
Definition wrap {A} (context : string) (m : M A) : M A :=
  λ w, match m w with
       | (inl e, w') => (inl (Wrapped context e), w')
       | (inr a, w') => (inr a, w')
       end.

(** A call statement whose results are not looked at. *)
Definition discard {A} (m : M A) : M unit :=
  λ w, (inr tt, snd (m w)).

Definition lift {A} (r : error + A) : M A := λ w, (r, w).
Definition perform (ev : Effect) : M unit := λ w, (inr tt, emit ev w).
Definition get_store : M (gmap string Document) := λ w, (inr (store w), w).

Notation "'let*' x := m 'in' k" := (bind m (λ x, k))
  (at level 10, x pattern, m at level 100, k at level 200).

(** [if err := f(); err != nil { return err }] for an optional failure. *)
Definition check (o : option error) : M unit :=
  match o with Some e => fail e | None => ret tt end.

(** ** Events and JSON, as both functions declare them *)

Record PubSubMessage : Type := { Data : Bytes }.
Record MessagePublishedData : Type := { Message : PubSubMessage }.

(** A CloudEvent, reduced to what [e.DataAs(&msg)] gives for it. *)
Record Event : Type := { DataAs : error + MessagePublishedData }.

(** The value a struct field tagged [json:"k"] gets from an object: the
    last member whose name goes to that field, or the zero value the
    struct started with.  (The structs of these functions have no two
    fields whose tags fold to the same name.) *)
Definition member (k : string) (members : list (string * string)) : string :=
  fold_left (λ acc kv, if names_field (fst kv) k then snd kv else acc)
            members "".

(** ** The channel processor: src/list-channels/function.go *)

Module gofeed.
(** [gofeed.Item], the fields that are read. *)
Record Item : Type := {
  GUID : string;
  Title : string;
  Content : string;
  Link : string;
  Updated : string;
}.
(** [gofeed.Feed]; of its fields only [Items] is read (its [Title], the
    name of the feed, is not). *)
Record Feed : Type := { Items : list Item }.
End gofeed.

Module firestore.
(** [firestore.DocumentSnapshot]: [Ref.ID] and [Data()], which is nil
    for a document that does not exist. *)
Record DocumentSnapshot : Type := {
  Ref : string;
  Data : option Document;
}.
End firestore.

Module ProcessChannel.

Module ChannelConfig.
Record t : Type := {
  FeedURL : string;     (* json:"url" *)
  NotifyURL : string;   (* json:"notify" *)
}.
End ChannelConfig.

Module FeedItem.
Record t : Type := {
  NotifyURL : string;   (* json:"notify" *)
  ID : string;          (* json:"id" *)
  Updated : string;     (* json:"updated" *)
  Link : string;        (* json:"link" *)
  Title : string;       (* json:"title" *)
  Content : string;     (* json:"content" *)
}.
End FeedItem.

(** [json.Unmarshal(data, &channelConfig)] into [ChannelConfig{}]. *)
Definition Unmarshal (data : Bytes) : error + ChannelConfig.t :=
  match data with
  | Malformed => inl (External "encoding/json")
  | Encoded members =>
      inr {| ChannelConfig.FeedURL := member "url" members;
             ChannelConfig.NotifyURL := member "notify" members |}
  end.

(** [json.Marshal(feed)]: the members in declaration order.  A struct of
    strings always encodes.  (Its strings come out of the JSON decoder
    and of the feed parser and are taken to be valid UTF-8, which the
    encoder writes as it is.) *)
Definition Marshal (feed : FeedItem.t) : error + Bytes :=
  inr (Encoded [ ("notify", FeedItem.NotifyURL feed);
                 ("id", FeedItem.ID feed);
                 ("updated", FeedItem.Updated feed);
                 ("link", FeedItem.Link feed);
                 ("title", FeedItem.Title feed);
                 ("content", FeedItem.Content feed) ]).

(** What the platform answers during one invocation. *)
Record Env : Type := {
  scheduler : Scheduler;
  ParseURL : string → error + gofeed.Feed;     (* gofeed parser *)
  firestore_NewClient : option error;
  GetAll_error : option error;
  pubsub_NewClient : option error;
  (* res.Get(ctx) of the i-th Publish: the server id or an error *)
  PublishResult_Get : nat → Bytes → error + string;
}.

(** The struct literal that [publishItem] builds for an entry. *)
Definition newFeedItem (notifyURL : string) (item : gofeed.Item) : FeedItem.t :=
  {| FeedItem.NotifyURL := notifyURL;
     FeedItem.ID := gofeed.GUID item;
     FeedItem.Title := gofeed.Title item;
     FeedItem.Content := gofeed.Content item;
     FeedItem.Link := gofeed.Link item;
     FeedItem.Updated := gofeed.Updated item |}.

Section Functions.
Context (env : Env).

(** [client.GetAll(ctx, ids)]: one snapshot per reference, in order. *)
Definition client_GetAll (ids : list string)
  : M (list firestore.DocumentSnapshot) :=
  let* _ := perform (CallGetAll ids) in
  let* _ := check (GetAll_error env) in
  let* docs := get_store in
  ret ((λ id, {| firestore.Ref := id; firestore.Data := docs !! id |}) <$> ids).

Definition removeOldItems (items : list gofeed.Item) : M (list gofeed.Item) :=
  let* _ := wrap "firestore client error" (check (firestore_NewClient env)) in
  let '(ids, itemMap) :=
    fold_left (λ (acc : list string * gmap string gofeed.Item) item,
                 ((fst acc ++ [gofeed.GUID item])%list,
                  <[gofeed.GUID item := item]> (snd acc)))
              items ([], ∅) in
  let* docs := wrap "failed getting items from firestore" (client_GetAll ids) in
  let itemMap :=
    fold_left (λ (m : gmap string gofeed.Item) snap,
                 match firestore.Data snap with
                 | Some _ => delete (firestore.Ref snap) m
                 | None => m
                 end)
              docs itemMap in
  let notFound := order (scheduler env) (snd <$> map_to_list itemMap) in
  ret notFound.

(** The body of the [for _, item := range items] loop of [publishItem]:
    every message is handed to the topic, and the pending results that
    the goroutines wait on are collected. *)
Fixpoint publish_each (notifyURL : string) (items : list gofeed.Item)
    (i : nat) : M (list (error + string)) :=
  match items with
  | [] => ret []
  | item :: rest =>
      let feed := newFeedItem notifyURL item in
      let* itemJson := wrap "json.Marshal" (lift (Marshal feed)) in
      let* _ := perform (CallPublish itemJson) in
      let res := PublishResult_Get env i itemJson in
      let* pending := publish_each notifyURL rest (S i) in
      ret (res :: pending)
  end.

(** One goroutine: [atomic.AddUint64(&totalErrors, 1)] when [res.Get]
    fails. *)
Definition goroutine (totalErrors : Z) (res : error + string) : Z :=
  match res with
  | inl _ => Go.AddUint64 totalErrors 1
  | inr _ => totalErrors
  end.

(** [wg.Wait()]: all goroutines have run, in whatever order. *)
Definition Wait (pending : list (error + string)) : Z :=
  fold_left goroutine (order (scheduler env) pending) 0%Z.

Definition publishItem (notifyURL : string) (items : list gofeed.Item)
  : M unit :=
  let* _ := wrap "pubsub.NewClient" (check (pubsub_NewClient env)) in
  let* pending := publish_each notifyURL items 0 in
  let totalErrors := Wait pending in
  if (0 <? totalErrors)%Z
  then fail (NotPublished totalErrors (Z.of_nat (length items)))
  else ret tt.

Definition processChannel (e : Event) : M unit :=
  let* msg := wrap "event.DataAs" (lift (DataAs e)) in
  let* channelConfig :=
    wrap "failed parsing JSON" (lift (Unmarshal (Data (Message msg)))) in
  let* feed :=
    wrap "failed parsing feed"
         (lift (ParseURL env (ChannelConfig.FeedURL channelConfig))) in
  let* items :=
    wrap "failed processing items" (removeOldItems (gofeed.Items feed)) in
  let* _ := discard (publishItem (ChannelConfig.NotifyURL channelConfig) items) in
  ret tt.

(** Two views of the fan-out used in the statements below: the bytes
    published for an entry, and the answers the goroutines get. *)
Definition wire (notifyURL : string) (item : gofeed.Item) : Bytes :=
  Encoded [ ("notify", notifyURL);
            ("id", gofeed.GUID item);
            ("updated", gofeed.Updated item);
            ("link", gofeed.Link item);
            ("title", gofeed.Title item);
            ("content", gofeed.Content item) ].

Definition answers (notifyURL : string) (items : list gofeed.Item) (i : nat)
  : list (error + string) :=
  imap (λ j item, PublishResult_Get env (i + j) (wire notifyURL item)) items.

Definition failed (res : error + string) : bool :=
  match res with inl _ => true | inr _ => false end.

End Functions.
End ProcessChannel.

(** ** The item processor: src/process-item/function.go *)

Module goquery.
(** A selection of one element: its attributes in document order, and
    the text in front of it, which the converter looks at for spacing. *)
Record Selection : Type := {
  NodeAttr : list (string * string);
  Before : string;
}.

(** The first attribute of that name, and whether there is one. *)
Fixpoint getAttributeValue (name : string) (attrs : list (string * string))
  : string * bool :=
  match attrs with
  | [] => ("", false)
  | (k, v) :: rest =>
      if String.eqb k name then (v, true) else getAttributeValue name rest
  end.

(** [selec.Attr(name)]. *)
Definition Attr (selec : Selection) (name : string) : string * bool :=
  getAttributeValue name (NodeAttr selec).

(** [selec.AttrOr(name, defaultValue)]. *)
Definition AttrOr (selec : Selection) (name defaultValue : string) : string :=
  let '(val, exists_) := getAttributeValue name (NodeAttr selec) in
  if negb exists_ then defaultValue else val.
End goquery.

Module md.
Record Options : Type := { StrongDelimiter : string }.

Record AdvancedResult : Type := {
  Header : string;
  Markdown : string;
  Footer : string;
}.

(** [md.AdvancedResult{}]. *)
Definition zero : AdvancedResult :=
  {| Header := ""; Markdown := ""; Footer := "" |}.

Record Rule : Type := {
  Filter : list string;
  AdvancedReplacement :
    string → goquery.Selection → Options → AdvancedResult * bool;
}.

(** A rule as the converter calls it. *)
Definition RuleFunc : Type :=
  string → goquery.Selection → Options → AdvancedResult * bool.

(** The document: a text node with its data, or an element with its name
    and contents; each node comes with its selection. *)
#[local] Unset Elimination Schemes.
Inductive Node : Type :=
| Text (selec : goquery.Selection) (data : string)
| Element (name : string) (selec : goquery.Selection) (contents : list Node).
#[local] Set Elimination Schemes.


(** Header and footer around the Markdown, as [Convert] puts them. *)
Definition assemble (res : AdvancedResult) : string :=
  let markdown := Markdown res in
  let markdown :=
    if Header res =? "" then markdown
    else Header res +:+ Go.nl +:+ Go.nl +:+ markdown in
  let markdown :=
    if Footer res =? "" then markdown
    else markdown +:+ Go.nl +:+ Go.nl +:+ Footer res in
  markdown.

(** The conversion library is not part of the repository.  Its parser,
    its own rules and its hooks are taken as given; how the converter
    walks the document and calls the rules is written out. *)
Section Converter.
Context (NewDocument : string → error + list Node)
        (textRules : string → list RuleFunc)
        (commonmark fallback : string → list RuleFunc)
        (after : string → string).
Context (opt : Options) (added : list Rule).

(** [conv.rules[name]]: the rules the converter starts with, then the
    added ones that name it in their filter, in the order of addition. *)
Definition addedFor (name : string) : list RuleFunc :=
  AdvancedReplacement <$> filter (λ rule, name ∈ Filter rule) added.

(** [getRuleFuncs]. *)
Definition getRuleFuncs (own : list RuleFunc) (name : string) : list RuleFunc :=
  match (own ++ addedFor name)%list with
  | [] => fallback name
  | rules => rules
  end.

(** The loop over the rules of one node, from the last one: header and
    footer pile up, and the first rule that does not pass writes its
    Markdown. *)
Fixpoint tryRules (fromLast : list RuleFunc) (content : AdvancedResult)
    (selec : goquery.Selection) (result : AdvancedResult) : AdvancedResult :=
  match fromLast with
  | [] => result
  | rule :: earlier =>
      let '(res, skip) := rule (Markdown content) selec opt in
      let result :=
        {| Header := Header result +:+ Header content
                     +:+ (if Header res =? "" then "" else Header res +:+ Go.nl);
           Markdown := Markdown result;
           Footer := Footer result +:+ Footer content
                     +:+ (if Footer res =? "" then "" else Footer res +:+ Go.nl) |} in
      if skip then tryRules earlier content selec result
      else {| Header := Header result;
              Markdown := Markdown result +:+ Markdown res;
              Footer := Footer result |}
  end.

(** One step of [selec.Contents().Each] in [selecToMD]. *)
Fixpoint convertNode (node : Node) (result : AdvancedResult) : AdvancedResult :=
  match node with
  | Text selec data =>
      tryRules (rev (getRuleFuncs (textRules data) "#text")) zero selec result
  | Element name selec contents =>
      let content :=
        (fix each (nodes : list Node) (r : AdvancedResult) : AdvancedResult :=
           match nodes with
           | [] => r
           | node :: rest => each rest (convertNode node r)
           end) contents zero in
      tryRules (rev (getRuleFuncs (commonmark name) name)) content selec result
  end.

Definition selecToMD (nodes : list Node) : AdvancedResult :=
  fold_left (λ r node, convertNode node r) nodes zero.

(** [Convert]: the walk, header and footer around the Markdown, then
    the hooks. *)
Definition Convert (nodes : list Node) : string :=
  after (assemble (selecToMD nodes)).

Definition convertString (html : string) : error + string :=
  match NewDocument html with
  | inl err => inl err
  | inr nodes => inr (Convert nodes)
  end.

End Converter.

Record Library : Type := {
  EscapeMultiLine : string → string;
  AddSpaceIfNessesary : goquery.Selection → string → string;
  (* goquery.NewDocumentFromReader, then the hooks that run before the
     walk: the contents of the document *)
  NewDocument : string → error + list Node;
  (* the rules for a text node, which read its data *)
  textRules : string → list RuleFunc;
  (* the rules of the commonmark set for an element name *)
  commonmark : string → list RuleFunc;
  (* what getRuleFuncs gives for a name without rules *)
  fallback : string → list RuleFunc;
  (* the hooks that run after the walk *)
  after : string → string;
  (* the empty document converts to the empty string, whatever is done
     with anchors *)
  empty_document :
    ∀ (opt : Options) (rule : RuleFunc),
      convertString NewDocument textRules commonmark fallback after opt
        [ {| Filter := ["a"]; AdvancedReplacement := rule |} ] ""
      = inr "";
  (* the library's own rules for an anchor pass over one that has a
     target and nothing to show *)
  commonmark_anchor_passes :
    ∀ (rule : RuleFunc) (content : string) (selec : goquery.Selection)
      (opt : Options),
      rule ∈ commonmark "a" →
      snd (goquery.Attr selec "href") = true →
      Go.TrimSpace (fst (goquery.Attr selec "href")) ≠ "" →
      Go.TrimSpace (fst (goquery.Attr selec "href")) ≠ "#" →
      Go.TrimSpace (EscapeMultiLine content) = "" →
      goquery.AttrOr selec "title" (goquery.AttrOr selec "aria-label" "") = "" →
      snd (rule content selec opt) = true;
}.

(** [md.NewConverter("", true, opt)], [AddRules(rules...)] and
    [ConvertString(html)]. *)
Definition ConvertString (lib : Library) (opt : Options) (rules : list Rule)
    (html : string) : error + string :=
  convertString (NewDocument lib) (textRules lib) (commonmark lib)
                (fallback lib) (after lib) opt rules html.
End md.

Module ProcessItem.

Module FeedItem.
Record t : Type := {
  NotifyURL : string;   (* json:"notify" *)
  Feed : string;        (* json:"feed" *)
  ID : string;          (* json:"id" *)
  Updated : string;     (* json:"updated" *)
  Link : string;        (* json:"link" *)
  Title : string;       (* json:"title" *)
  Content : string;     (* json:"content" *)
}.
End FeedItem.

(** [json.Unmarshal(msg.Message.Data, &item)] into [FeedItem{}]. *)
Definition Unmarshal (data : Bytes) : error + FeedItem.t :=
  match data with
  | Malformed => inl (External "encoding/json")
  | Encoded members =>
      inr {| FeedItem.NotifyURL := member "notify" members;
             FeedItem.Feed := member "feed" members;
             FeedItem.ID := member "id" members;
             FeedItem.Updated := member "updated" members;
             FeedItem.Link := member "link" members;
             FeedItem.Title := member "title" members;
             FeedItem.Content := member "content" members |}
  end.

(** [json.Marshal(msg)] of a [map[string]string]; it always encodes, and
    what it encodes is [json_string] of each name and value. *)
Definition Marshal (msg : list (string * string)) : error + Bytes :=
  inr (Encoded ((λ kv, (json_string (fst kv), json_string (snd kv))) <$> msg)).

Record Response : Type := {
  StatusCode : Z;
  Status : string;
  Body : string;      (* io.ReadAll(resp.Body) *)
}.

(** What the platform answers during one invocation. *)
Record Env : Type := {
  http_Post : string → Bytes → error + Response;
  firestore_NewClient : option error;
  Set_error : option error;
}.

Section Functions.
Context (lib : md.Library) (env : Env).

(** The [title] variable of the rule: empty, or a space and the quoted
    [title] attribute, newlines turned into spaces and quotes escaped. *)
Definition quotedTitle (selec : goquery.Selection) : string :=
  let '(t, ok) := goquery.Attr selec "title" in
  if ok then
    let t := Go.Replace t "010"%char " " in
    let t := Go.Replace t "034"%char (Go.backslash +:+ Go.dquote) in
    " " +:+ Go.dquote +:+ t +:+ Go.dquote
  else "".

(** The replacement rule for [<a>]. *)
Definition anchorReplacement (content : string) (selec : goquery.Selection)
    (opt : md.Options) : md.AdvancedResult * bool :=
  let '(href, ok) := goquery.Attr selec "href" in
  if negb ok || (Go.TrimSpace href =? "") || (Go.TrimSpace href =? "#")
  then ({| md.Header := ""; md.Markdown := content; md.Footer := "" |}, false)
  else
    let content := md.EscapeMultiLine lib content in
    let title := quotedTitle selec in
    let content :=
      if Go.TrimSpace content =? ""
      then goquery.AttrOr selec "title" (goquery.AttrOr selec "aria-label" "")
      else content in
    if content =? "" then (md.zero, true)
    else
      let markdown := "<" +:+ href +:+ title +:+ "|" +:+ content +:+ ">" in
      let markdown := md.AddSpaceIfNessesary lib selec markdown in
      ({| md.Header := ""; md.Markdown := markdown; md.Footer := "" |}, false).

(** The options and the rule that [htmlToMarkdown] gives the converter. *)
Definition options : md.Options := {| md.StrongDelimiter := "*" |}.

Definition rules : list md.Rule :=
  [ {| md.Filter := ["a"]; md.AdvancedReplacement := anchorReplacement |} ].

Definition htmlToMarkdown (html : string) : error + string :=
  let opt := options in
  md.ConvertString lib opt rules html.



(** [fmt.Sprintf] with the format of [notify]: feed, a space, the link
    token, two newlines, the text. *)
Definition Sprintf (feed link title text : string) : string :=
  feed +:+ " <" +:+ link +:+ "|" +:+ title +:+ ">" +:+ Go.nl +:+ Go.nl +:+ text.

(** The length bound of [notify]. *)
Definition trim (text : string) : error + string :=
  if (4000 <? Go.len text)%nat then Go.slice_to 4000 text else inr text.

Definition Post (url : string) (body : Bytes) : M Response :=
  let* _ := perform (CallPost url body) in
  lift (http_Post env url body).

Definition notify (item : FeedItem.t) : M unit :=
  let* text :=
    wrap "failed converting to markdown"
         (lift (htmlToMarkdown (FeedItem.Content item))) in
  let text := Sprintf (FeedItem.Feed item) (FeedItem.Link item)
                      (FeedItem.Title item) text in
  let* text := lift (trim text) in
  let msg := [("text", text)] in
  let* jsonBody := wrap "json.Marshal" (lift (Marshal msg)) in
  let* resp :=
    wrap "error making http request" (Post (FeedItem.NotifyURL item) jsonBody) in
  if negb (StatusCode resp =? 200)%Z
  then fail (ResponseStatus (Status resp) (Body resp))
  else ret tt.

(** [client.Collection(collection).Doc(id).Set(ctx, fields, MergeAll)]:
    the given fields replace the stored ones, the others stay. *)
Definition doc_Set (id : string) (fields : Document) : M unit :=
  let* _ := perform (CallSet id fields) in
  let* _ := check (Set_error env) in
  λ w, (inr tt,
        {| store := <[id := fields ∪ default ∅ (store w !! id)]> (store w);
           trace := trace w |}).

Definition save (item : FeedItem.t) : M unit :=
  let* _ := wrap "firestore client error" (check (firestore_NewClient env)) in
  let* _ :=
    wrap "failed writing to firestore"
         (doc_Set (FeedItem.ID item)
            (list_to_map [ ("id", FeedItem.ID item);
                           ("lastUpdate", FeedItem.Updated item);
                           ("title", FeedItem.Title item);
                           ("content", FeedItem.Content item);
                           ("link", FeedItem.Link item) ] : Document)) in
  ret tt.

Definition processItem (e : Event) : M unit :=
  let* msg := wrap "event.DataAs" (lift (DataAs e)) in
  let* item := wrap "failed parsing JSON" (lift (Unmarshal (Data (Message msg)))) in
  let* _ := wrap "failed sending notification" (notify item) in
  let* _ := wrap "failed updating record" (save item) in
  ret tt.

(** The fields [save] writes for an item. *)
Definition record (item : FeedItem.t) : Document :=
  list_to_map [ ("id", FeedItem.ID item);
                ("lastUpdate", FeedItem.Updated item);
                ("title", FeedItem.Title item);
                ("content", FeedItem.Content item);
                ("link", FeedItem.Link item) ].

(** The webhook answered 200 to the notification of [item]. *)
Definition delivered (item : FeedItem.t) : Prop :=
  ∃ text sent resp,
    htmlToMarkdown (FeedItem.Content item) = inr text
    ∧ trim (Sprintf (FeedItem.Feed item) (FeedItem.Link item)
                    (FeedItem.Title item) text) = inr sent
    ∧ http_Post env (FeedItem.NotifyURL item)
                (Encoded [("text", json_string sent)])
      = inr resp
    ∧ StatusCode resp = 200%Z.

End Functions.

(** An invocation that went from [w] to [w'] with result [r] stopped with
    an error and wrote nothing: the store is as before and no write was
    even asked for. *)
Definition aborted_unwritten (r : error + unit) (w w' : World) : Prop :=
  (∃ err, r = inl err)
  ∧ store w' = store w
  ∧ ∃ evs, trace w' = (trace w ++ evs)%list
           ∧ ∀ id fields, CallSet id fields ∉ evs.

End ProcessItem.

(** ** The channel lister: src/list-channels/function.go, first unit *)

Module ListChannels.

(** The data of a document of the channels collection, reduced to what
    [json.Marshal(channel)] gives for it. *)
Record Channel : Type := { Marshal : error + Bytes }.

(** What the platform answers during one invocation. *)
Record Env : Type := {
  firestore_NewClient : option error;
  (* the documents [iter.Next()] yields, in order *)
  Documents : list Channel;
  (* how the iteration ends: [iterator.Done], or an error *)
  iterator_end : option error;
  (* pubsub.NewClient in the i-th call of publishChannel *)
  pubsub_NewClient : nat → option error;
  (* result.Get(ctx) of the i-th call: the server id or an error *)
  PublishResult_Get : nat → Bytes → error + string;
}.

Section Functions.
Context (env : Env).

(** The [i]-th call of [publishChannel]. *)
Definition publishChannel (i : nat) (channel : Channel) : M unit :=
  let* _ := wrap "pubsub.NewClient" (check (pubsub_NewClient env i)) in
  let* channelJson := wrap "json.Marshal" (lift (Marshal channel)) in
  let* _ := perform (CallPublish channelJson) in
  let* id := wrap "failed to publish" (lift (PublishResult_Get env i channelJson)) in
  ret tt.

(** The [for] loop of [listChannels] over the documents that come before
    the end of the iteration; an error of [publishChannel] is logged and
    the loop goes on. *)
Fixpoint each_channel (docs : list Channel) (i : nat) : M unit :=
  match docs with
  | [] => ret tt
  | channel :: rest =>
      let* _ := discard (publishChannel i channel) in
      each_channel rest (S i)
  end.

(** [listChannels]: the value is the body written to the response; an
    error is a [log.Fatalf], which ends the process before any response. *)
Definition listChannels : M string :=
  let* _ := wrap "firestore client error" (check (firestore_NewClient env)) in
  let* _ := each_channel (Documents env) 0 in
  let* _ := wrap "firestore collection error" (check (iterator_end env)) in
  ret "Success".

End Functions.
End ListChannels.

(** ** Concrete platforms and inputs, for the examples *)

Module Examples.

(** Everything happens in program order. *)
Definition sequential : Scheduler :=
  mkScheduler (λ A l, l) (λ A l, reflexivity l).

Definition nothing : World := {| store := ∅; trace := [] |}.

Definition entry (id title : string) : gofeed.Item :=
  {| gofeed.GUID := id; gofeed.Title := title; gofeed.Content := "";
     gofeed.Link := "https://example.org/" +:+ id; gofeed.Updated := "" |}.

(** A delivered record for identifier [id]. *)
Definition seen (id : string) : gmap string Document :=
  {[ id := {[ "id" := id ]} ]}.

(** A platform on which every call goes through, serving a feed with the
    given entries. *)
Definition healthy (entries : list gofeed.Item) : ProcessChannel.Env :=
  {| ProcessChannel.scheduler := sequential;
     ProcessChannel.ParseURL := λ _, inr {| gofeed.Items := entries |};
     ProcessChannel.firestore_NewClient := None;
     ProcessChannel.GetAll_error := None;
     ProcessChannel.pubsub_NewClient := None;
     ProcessChannel.PublishResult_Get := λ i _, inr "msg-id" |}.

(** The same, except that the topic rejects every message. *)
Definition rejecting (entries : list gofeed.Item) : ProcessChannel.Env :=
  {| ProcessChannel.scheduler := sequential;
     ProcessChannel.ParseURL := λ _, inr {| gofeed.Items := entries |};
     ProcessChannel.firestore_NewClient := None;
     ProcessChannel.GetAll_error := None;
     ProcessChannel.pubsub_NewClient := None;
     ProcessChannel.PublishResult_Get :=
       λ i _, inl (External "context deadline exceeded") |}.

(** A selection without attributes. *)
Definition bare : goquery.Selection :=
  {| goquery.NodeAttr := []; goquery.Before := "" |}.

(** A conversion library that is enough for the examples: the text of a
    text node is its Markdown, an element without rules gives its
    content, there are no rules of its own and no hooks.  The document
    of [page nodes] is [nodes] for every input but the empty one. *)
Definition page (nodes : list md.Node) : md.Library :=
  {| md.EscapeMultiLine :=
       λ content, Go.Replace (Go.TrimSpace content) "010"%char
                             (Go.backslash +:+ Go.nl);
     md.AddSpaceIfNessesary := λ _ markdown, markdown;
     md.NewDocument := λ html, if html =? "" then inr [] else inr nodes;
     md.textRules :=
       λ data, [λ _ _ _, ({| md.Header := ""; md.Markdown := data;
                             md.Footer := "" |}, false)];
     md.commonmark := λ _, [];
     md.fallback :=
       λ _, [λ content _ _, ({| md.Header := ""; md.Markdown := content;
                                md.Footer := "" |}, false)];
     md.after := λ markdown, markdown;
     md.empty_document := λ _ _, eq_refl;
     md.commonmark_anchor_passes :=
       λ rule _ _ _ Hin _ _ _ _ _, False_ind _ (proj1 (elem_of_nil rule) Hin) |}.

(** The same for text without markup: the document is one text node. *)
Definition plain : md.Library :=
  {| md.EscapeMultiLine :=
       λ content, Go.Replace (Go.TrimSpace content) "010"%char
                             (Go.backslash +:+ Go.nl);
     md.AddSpaceIfNessesary := λ _ markdown, markdown;
     md.NewDocument := λ html, inr [md.Text bare html];
     md.textRules :=
       λ data, [λ _ _ _, ({| md.Header := ""; md.Markdown := data;
                             md.Footer := "" |}, false)];
     md.commonmark := λ _, [];
     md.fallback :=
       λ _, [λ content _ _, ({| md.Header := ""; md.Markdown := content;
                                md.Footer := "" |}, false)];
     md.after := λ markdown, markdown;
     md.empty_document := λ _ _, eq_refl;
     md.commonmark_anchor_passes :=
       λ rule _ _ _ Hin _ _ _ _ _, False_ind _ (proj1 (elem_of_nil rule) Hin) |}.

(** A webhook that answers every request with the given status. *)
Definition webhook (status : Z) : ProcessItem.Env :=
  {| ProcessItem.http_Post :=
       λ _ _, inr {| ProcessItem.StatusCode := status;
                     ProcessItem.Status := "";
                     ProcessItem.Body := "" |};
     ProcessItem.firestore_NewClient := None;
     ProcessItem.Set_error := None |}.


Definition post (title content : string) : ProcessItem.FeedItem.t :=
  {| ProcessItem.FeedItem.NotifyURL := "https://chat.example.org/hook";
     ProcessItem.FeedItem.Feed := "News";
     ProcessItem.FeedItem.ID := "A";
     ProcessItem.FeedItem.Updated := "";
     ProcessItem.FeedItem.Link := "https://example.org/A";
     ProcessItem.FeedItem.Title := title;
     ProcessItem.FeedItem.Content := content |}.

(** The event that carries [post title content]. *)
Definition item_event (title content : string) : Event :=
  {| DataAs := inr {| Message := {| Data :=
       Encoded [ ("notify", "https://chat.example.org/hook");
                 ("feed", "News");
                 ("id", "A");
                 ("updated", "");
                 ("link", "https://example.org/A");
                 ("title", title);
                 ("content", content) ] |} |} |}.

(** An anchor element with the given attributes. *)
Definition anchor (attrs : list (string * string)) : goquery.Selection :=
  {| goquery.NodeAttr := attrs; goquery.Before := "" |}.

(** The event that carries a channel configuration. *)
Definition channel_event : Event :=
  {| DataAs := inr {| Message := {| Data :=
       Encoded [ ("url", "https://example.org/feed.xml");
                 ("notify", "https://chat.example.org/hook") ] |} |} |}.

(** [n] times the letter e with an acute accent, two bytes each. *)
Fixpoint accents (n : nat) : string :=
  match n with
  | O => ""
  | S n' => String "195"%char (String "169"%char (accents n'))
  end.


(** A webhook that answers 200 in front of a store that refuses the
    write. *)
Definition readonly : ProcessItem.Env :=
  {| ProcessItem.http_Post :=
       λ _ _, inr {| ProcessItem.StatusCode := 200;
                     ProcessItem.Status := "200 OK";
                     ProcessItem.Body := "" |};
     ProcessItem.firestore_NewClient := None;
     ProcessItem.Set_error := Some (External "unavailable") |}.

(** The message decoded from [item_event title content]. *)
Definition item_message (title content : string) : MessagePublishedData :=
  {| Message := {| Data :=
       Encoded [ ("notify", "https://chat.example.org/hook");
                 ("feed", "News");
                 ("id", "A");
                 ("updated", "");
                 ("link", "https://example.org/A");
                 ("title", title);
                 ("content", content) ] |} |}.

(** The message and the configuration decoded from [channel_event]. *)
Definition channel_message : MessagePublishedData :=
  {| Message := {| Data :=
       Encoded [ ("url", "https://example.org/feed.xml");
                 ("notify", "https://chat.example.org/hook") ] |} |}.

Definition channel_config : ProcessChannel.ChannelConfig.t :=
  {| ProcessChannel.ChannelConfig.FeedURL := "https://example.org/feed.xml";
     ProcessChannel.ChannelConfig.NotifyURL := "https://chat.example.org/hook" |}.

(** An event whose configuration names the feed only. *)
Definition bare_message : MessagePublishedData :=
  {| Message := {| Data := Encoded [ ("url", "https://example.org/feed.xml") ] |} |}.

Definition bare_event : Event := {| DataAs := inr bare_message |}.

(** An event that does not decode. *)
Definition broken_event : Event := {| DataAs := inl (External "not a message") |}.

(** Two channel documents; the topic client cannot be made for the first
    one, and no publish is acknowledged. *)
Definition channel_doc (url : string) : ListChannels.Channel :=
  {| ListChannels.Marshal :=
       inr (Encoded [ ("notify", "https://chat.example.org/hook");
                      ("url", url) ]) |}.

Definition flaky_lister : ListChannels.Env :=
  {| ListChannels.firestore_NewClient := None;
     ListChannels.Documents := [channel_doc "https://a.example.org/rss";
                                channel_doc "https://b.example.org/rss"];
     ListChannels.iterator_end := None;
     ListChannels.pubsub_NewClient :=
       λ i, match i with O => Some (External "no credentials") | _ => None end;
     ListChannels.PublishResult_Get :=
       λ _ _, inl (External "context deadline exceeded") |}.

End Examples.

(** * Properties of the channel processor *)

Module ChannelProperties.
Import ProcessChannel Examples.

(** ** Deduplication *)

(** The first loop of [removeOldItems] builds the identifier list and the
    map independently of each other. *)
Lemma collect_fold (items : list gofeed.Item) (ids : list string)
    (m : gmap string gofeed.Item) :
  fold_left (λ (acc : list string * gmap string gofeed.Item) item,
               ((fst acc ++ [gofeed.GUID item])%list,
                <[gofeed.GUID item := item]> (snd acc)))
            items (ids, m)
  = ((ids ++ (gofeed.GUID <$> items))%list,
     fold_left (λ m item, <[gofeed.GUID item := item]> m) items m).
Proof.
  revert ids m. induction items as [|a items IH]; intros ids m; simpl.
  - by rewrite app_nil_r.
  - rewrite IH. simpl. by rewrite <- app_assoc.
Qed.

(** What [itemMap] holds under a key: the last entry with that identifier. *)
Lemma itemMap_lookup (items : list gofeed.Item) (m : gmap string gofeed.Item)
    (k : string) (it : gofeed.Item) :
  fold_left (λ m item, <[gofeed.GUID item := item]> m) items m !! k = Some it
  ↔ (∃ l1 l2, items = (l1 ++ it :: l2)%list ∧ gofeed.GUID it = k
              ∧ k ∉ (gofeed.GUID <$> l2))
    ∨ ((k ∉ (gofeed.GUID <$> items)) ∧ m !! k = Some it).
Proof.
  revert m. induction items as [|a items IH]; intros m; cbn [fold_left].
  - split.
    + intros H. right. split; [apply not_elem_of_nil | done].
    + intros [(l1 & l2 & H & _)|[_ H]]; [by destruct l1 | done].
  - rewrite IH. split.
    + intros [(l1 & l2 & -> & Hk & Hn)|[Hn H]].
      * left. by exists (a :: l1), l2.
      * destruct (decide (gofeed.GUID a = k)) as [Heq|Hne].
        -- rewrite <- Heq, lookup_insert_eq in H. injection H as ->.
           left. by exists [], items.
        -- rewrite lookup_insert_ne in H by done. right. split; [|done].
           rewrite fmap_cons, not_elem_of_cons. auto.
    + intros [(l1 & l2 & H & Hk & Hn)|[Hn H]].
      * destruct l1 as [|b l1]; simpl in H; injection H as -> ->.
        -- right. split; [done|]. rewrite <- Hk. apply lookup_insert_eq.
        -- left. by exists l1, l2.
      * rewrite fmap_cons, not_elem_of_cons in Hn. destruct Hn as [Hne Hn].
        right. split; [done|]. by rewrite lookup_insert_ne.
Qed.

(** The second loop deletes the keys whose document exists. *)
Lemma prune_lookup (st : gmap string Document) (ids : list string)
    (m : gmap string gofeed.Item) (k : string) (it : gofeed.Item) :
  fold_left (λ (m : gmap string gofeed.Item) snap,
               match firestore.Data snap with
               | Some _ => delete (firestore.Ref snap) m
               | None => m
               end)
            ((λ id, {| firestore.Ref := id; firestore.Data := st !! id |}) <$> ids)
            m !! k = Some it
  ↔ m !! k = Some it ∧ (k ∈ ids → st !! k = None).
Proof.
  revert m. induction ids as [|a ids IH]; intros m;
    rewrite ?fmap_nil, ?fmap_cons; cbn [fold_left firestore.Data firestore.Ref].
  - split; [|tauto]. intros H; split; [done|]. by intros ?%elem_of_nil.
  - rewrite IH. destruct (st !! a) as [d|] eqn:Ha.
    + rewrite lookup_delete_Some. split.
      * intros [[Hne H] Hin]. split; [done|].
        intros [->|?]%elem_of_cons; [done | auto].
      * intros [H Hin]. split; [split; [|done] |].
        -- intros ->. specialize (Hin (list_elem_of_here _ _)). congruence.
        -- intros ?. apply Hin. by apply list_elem_of_further.
    + split.
      * intros [H Hin]. split; [done|].
        intros [->|?]%elem_of_cons; [done | auto].
      * intros [H Hin]. split; [done|]. intros ?. apply Hin.
        by apply list_elem_of_further.
Qed.

Lemma keyed_values (m : gmap string gofeed.Item) :
  (∀ k it, m !! k = Some it → gofeed.GUID it = k) →
  gofeed.GUID <$> (snd <$> map_to_list m) = fst <$> map_to_list m.
Proof.
  intros Hk. rewrite <- list_fmap_compose. apply list_fmap_ext.
  intros i [k it] Hi. simpl. apply Hk.
  apply elem_of_map_to_list. by eapply list_elem_of_lookup_2.
Qed.

(** How far [removeOldItems] gets: it stops before touching the store, or
    it has asked for exactly one batch read. *)
Lemma removeOldItems_run (env : Env) (items : list gofeed.Item) (w : World) :
  (∃ err, removeOldItems env items w = (inl err, w))
  ∨ (∃ r, removeOldItems env items w
          = (r, emit (CallGetAll (gofeed.GUID <$> items)) w)).
Proof.
  unfold removeOldItems. rewrite collect_fold.
  unfold client_GetAll, bind, wrap, check, perform, get_store, ret, fail.
  destruct (firestore_NewClient env) as [e|]; [by left; eexists|].
  right. destruct (GetAll_error env); by eexists.
Qed.

(** C4 (as amended).  When the store answers, [removeOldItems] asks for
    one batch read over the identifiers of all entries and returns, in
    some order and once each, the entries that are the last of their
    identifier in the input and whose identifier has no document; when
    the identifiers of the input are pairwise distinct, these are exactly
    the entries whose identifier has no document. *)
Theorem removeOldItems_new_entries (env : Env) (items : list gofeed.Item)
    (w : World) :
  firestore_NewClient env = None →
  GetAll_error env = None →
  ∃ out,
    removeOldItems env items w
      = (inr out, emit (CallGetAll (gofeed.GUID <$> items)) w)
    ∧ NoDup (gofeed.GUID <$> out)
    ∧ (∀ it, it ∈ out ↔
         (∃ l1 l2, items = (l1 ++ it :: l2)%list
                   ∧ gofeed.GUID it ∉ (gofeed.GUID <$> l2))
         ∧ store w !! gofeed.GUID it = None)
    ∧ (NoDup (gofeed.GUID <$> items) →
       ∀ it, it ∈ out ↔ it ∈ items ∧ store w !! gofeed.GUID it = None).
Proof.
  intros Hclient Hread.
  unfold removeOldItems. rewrite collect_fold.
  unfold client_GetAll, bind, wrap, check, perform, get_store, ret.
  rewrite Hclient, Hread. cbn [fst snd app].
  set (m := fold_left _ _ (fold_left _ items ∅)).
  assert (Hm : ∀ k it, m !! k = Some it ↔
            (∃ l1 l2, items = (l1 ++ it :: l2)%list
                      ∧ gofeed.GUID it ∉ (gofeed.GUID <$> l2))
            ∧ gofeed.GUID it = k ∧ store w !! k = None).
  { intros k it. subst m. rewrite prune_lookup, itemMap_lookup.
    rewrite lookup_empty. split.
    - intros [[(l1 & l2 & -> & <- & Hn)|[_ ?]] Hin]; [|done].
      split; [by exists l1, l2|]. split; [done|]. apply Hin.
      rewrite fmap_app, fmap_cons. apply elem_of_app. right. left.
    - intros [(l1 & l2 & -> & Hn) [<- Hst]]. split; [|done].
      left. by exists l1, l2. }
  assert (Hout : ∀ it, it ∈ order (scheduler env) (snd <$> map_to_list m)
                       ↔ m !! gofeed.GUID it = Some it).
  { intros it. rewrite (order_perm (scheduler env)), list_elem_of_fmap.
    split.
    - intros [[k v] [-> Hkv%elem_of_map_to_list]]. simpl.
      pose proof (proj1 (Hm _ _) Hkv) as (_ & <- & _). done.
    - intros H. exists (gofeed.GUID it, it). split; [done|].
      by apply elem_of_map_to_list. }
  eexists. split; [reflexivity|]. split; [|split].
  - rewrite (order_perm (scheduler env)), keyed_values.
    + apply NoDup_fst_map_to_list.
    + intros k it H. by apply Hm in H as (_ & ? & _).
  - intros it. rewrite Hout, Hm. tauto.
  - intros Hnd it. rewrite Hout, Hm. split.
    + intros [(l1 & l2 & -> & _) [_ Hst]]. split; [|done].
      apply elem_of_app. right. left.
    + intros [(l1 & l2 & ->)%list_elem_of_split Hst].
      split; [|done]. exists l1, l2. split; [done|].
      rewrite fmap_app, fmap_cons in Hnd.
      apply NoDup_app in Hnd as (_ & _ & Hnd).
      by apply NoDup_cons in Hnd as [? _].
Qed.

(** Entries [A, B, C] against a store that holds [A]: the new ones are
    [B] and [C]. *)
Lemma removeOldItems_new_entries_witness :
  ∃ out,
    fst (removeOldItems (healthy [])
           [entry "A" "a"; entry "B" "b"; entry "C" "c"]
           {| store := seen "A"; trace := [] |}) = inr out
    ∧ out ≡ₚ [entry "B" "b"; entry "C" "c"].
Proof.
  destruct (removeOldItems_new_entries (healthy [])
              [entry "A" "a"; entry "B" "b"; entry "C" "c"]
              {| store := seen "A"; trace := [] |} eq_refl eq_refl)
    as (out & Hrun & Hnd & _ & Hin).
  exists out. split; [by rewrite Hrun|].
  apply NoDup_Permutation.
  - by apply NoDup_fmap_1 in Hnd.
  - apply (NoDup_fmap_1 gofeed.GUID). by apply (bool_decide_unpack _).
  - intros it. rewrite Hin by by apply (bool_decide_unpack _).
    rewrite !elem_of_cons, elem_of_nil. cbn [store]. split.
    + intros [[->|[->|[->|[]]]] Hst]; [discriminate Hst | auto | auto].
    + intros [->|[->|[]]]; (split; [auto | reflexivity]).
Defined.

(** C4 (as stated) fails on two entries that share an identifier: both
    have an identifier without a document, and only the later one comes
    back. *)
Lemma removeOldItems_duplicate_identifier :
  ¬ (∀ (env : Env) (items out : list gofeed.Item) (w w' : World),
       removeOldItems env items w = (inr out, w') →
       ∀ it, it ∈ out ↔ it ∈ items ∧ store w !! gofeed.GUID it = None).
Proof.
  intros H.
  specialize (H (healthy []) [entry "A" "first"; entry "A" "second"]
                [entry "A" "second"] nothing
                (emit (CallGetAll ["A"; "A"]) nothing) eq_refl
                (entry "A" "first")).
  destruct H as [_ H].
  assert (Hin : entry "A" "first" ∈ [entry "A" "second"]).
  { apply H. split; [left | reflexivity]. }
  apply list_elem_of_singleton in Hin. discriminate Hin.
Qed.




(** ** Fan-out *)

Lemma Marshal_newFeedItem (notifyURL : string) (item : gofeed.Item) :
  Marshal (newFeedItem notifyURL item) = inr (wire notifyURL item).
Proof. reflexivity. Qed.

(** The loop hands every message to the topic, whatever the answers. *)
Lemma publish_each_run (env : Env) (notifyURL : string)
    (items : list gofeed.Item) (i : nat) (w : World) :
  publish_each env notifyURL items i w
  = (inr (answers env notifyURL items i),
     {| store := store w;
        trace := (trace w ++ (CallPublish <$> (wire notifyURL <$> items)))%list |}).
Proof.
  revert i w. induction items as [|item items IH]; intros i w.
  - cbn. rewrite app_nil_r. by destruct w.
  - cbn [publish_each]. unfold bind, wrap, lift, perform.
    rewrite Marshal_newFeedItem. rewrite IH. unfold ret, emit. cbn [store trace].
    rewrite <- app_assoc. unfold answers. cbn [imap].
    rewrite Nat.add_0_r. do 3 f_equal.
    apply imap_ext. intros j x _. simpl. by rewrite Nat.add_succ_r.
Qed.

(** The counter after the goroutines have run in a given order. *)
Lemma goroutines_tally (pending : list (error + string)) (acc : Z) :
  (0 ≤ acc)%Z →
  (acc + Z.of_nat (length pending) < 2 ^ 64)%Z →
  fold_left goroutine pending acc
  = (acc + Z.of_nat (length (filter (λ r, failed r = true) pending)))%Z.
Proof.
  revert acc. induction pending as [|r pending IH]; intros acc Hacc Hlen.
  - cbn. lia.
  - cbn [fold_left]. cbn [length] in Hlen. destruct r as [e|id].
    + rewrite filter_cons_True by done. cbn [goroutine length].
      unfold Go.AddUint64. rewrite Z.mod_small by lia.
      rewrite IH by lia. lia.
    + rewrite filter_cons_False by done. cbn [goroutine].
      rewrite IH by lia. done.
Qed.

(** The order in which they run does not matter. *)
Lemma Wait_tally (env : Env) (pending : list (error + string)) :
  (Z.of_nat (length pending) < 2 ^ 64)%Z →
  Wait env pending
  = Z.of_nat (length (filter (λ r, failed r = true) pending)).
Proof.
  intros Hlen. unfold Wait.
  pose proof (order_perm (scheduler env) _ pending) as Hp.
  rewrite goroutines_tally; [|lia|by rewrite Hp].
  by rewrite Hp.
Qed.

(** [publishItem] itself does tally: with [k] of the [n] publishes
    failing, every message has been handed to the topic and the result is
    the aggregate error exactly when [k > 0]. *)
Lemma publishItem_tally (env : Env) (notifyURL : string)
    (items : list gofeed.Item) (w : World) :
  pubsub_NewClient env = None →
  (Z.of_nat (length items) < 2 ^ 64)%Z →
  let k := Z.of_nat (length (filter (λ r, failed r = true)
                                    (answers env notifyURL items 0))) in
  publishItem env notifyURL items w
  = (if (0 <? k)%Z then inl (NotPublished k (Z.of_nat (length items)))
     else inr (),
     {| store := store w;
        trace := (trace w ++ (CallPublish <$> (wire notifyURL <$> items)))%list |}).
Proof.
  intros Hclient Hlen k. unfold publishItem, bind, wrap, check.
  rewrite Hclient. unfold ret at 1. rewrite publish_each_run.
  rewrite Wait_tally by (unfold answers; by rewrite length_imap).
  fold k. unfold fail, ret. by destruct (0 <? k)%Z.
Qed.

(** What [publishItem] asks of the outside: nothing when the client
    cannot be made, else one publish per entry. *)
Lemma publishItem_world (env : Env) (notifyURL : string)
    (items : list gofeed.Item) (w : World) :
  store (snd (publishItem env notifyURL items w)) = store w
  ∧ ∃ sent, (sent = [] ∨ sent = items)
            ∧ trace (snd (publishItem env notifyURL items w))
              = (trace w ++ (CallPublish <$> (wire notifyURL <$> sent)))%list.
Proof.
  unfold publishItem, bind, wrap, check, ret, fail.
  destruct (pubsub_NewClient env) as [e|].
  - cbn. split; [done|]. exists []. split; [by left|]. by rewrite app_nil_r.
  - rewrite !publish_each_run.
    destruct (0 <? _)%Z; (split; [done | exists items; by split; [right|]]).
Qed.

(** Once the new entries are known, [processChannel] returns [nil]: the
    result of [publishItem] is not looked at. *)
Lemma processChannel_after_dedup (env : Env) (e : Event)
    (msg : MessagePublishedData) (channelConfig : ChannelConfig.t)
    (feed : gofeed.Feed) (items : list gofeed.Item) (w w1 : World) :
  DataAs e = inr msg →
  Unmarshal (Data (Message msg)) = inr channelConfig →
  ParseURL env (ChannelConfig.FeedURL channelConfig) = inr feed →
  removeOldItems env (gofeed.Items feed) w = (inr items, w1) →
  fst (processChannel env e w) = inr ().
Proof.
  intros Hmsg Hcfg Hfeed Hitems.
  unfold processChannel, bind, wrap, lift, discard, ret.
  by rewrite Hmsg, Hcfg, Hfeed, Hitems.
Qed.

(** C1.  Whenever the fan-out over the [n] new entries has [k > 0]
    failing publishes, [publishItem] has handed all [n] messages to the
    topic and returns the aggregate error for [k] of [n], and the
    invocation of [processChannel] around it returns [nil]. *)
Theorem processChannel_drops_tally (env : Env) (e : Event)
    (msg : MessagePublishedData) (channelConfig : ChannelConfig.t)
    (feed : gofeed.Feed) (items : list gofeed.Item) (w w1 : World) :
  DataAs e = inr msg →
  Unmarshal (Data (Message msg)) = inr channelConfig →
  ParseURL env (ChannelConfig.FeedURL channelConfig) = inr feed →
  removeOldItems env (gofeed.Items feed) w = (inr items, w1) →
  pubsub_NewClient env = None →
  (Z.of_nat (length items) < 2 ^ 64)%Z →
  let notifyURL := ChannelConfig.NotifyURL channelConfig in
  let n := Z.of_nat (length items) in
  let k := Z.of_nat (length (filter (λ r, failed r = true)
                                    (answers env notifyURL items 0))) in
  (0 < k)%Z →
  fst (publishItem env notifyURL items w1) = inl (NotPublished k n)
  ∧ trace (snd (processChannel env e w))
    = (trace w1 ++ (CallPublish <$> (wire notifyURL <$> items)))%list
  ∧ fst (processChannel env e w) = inr ().
Proof.
  intros Hmsg Hcfg Hfeed Hitems Hclient Hlen notifyURL n k Hk.
  pose proof (publishItem_tally env notifyURL items w1 Hclient Hlen) as Hrun.
  cbv zeta in Hrun. fold k n in Hrun.
  apply Z.ltb_lt in Hk. rewrite Hk in Hrun.
  split; [by rewrite Hrun|].
  unfold processChannel, bind, wrap, lift, discard, ret.
  rewrite Hmsg, Hcfg, Hfeed, Hitems. fold notifyURL. by rewrite Hrun.
Qed.

(** One new entry, and the topic rejects it. *)
Lemma processChannel_drops_tally_witness :
  fst (publishItem (rejecting [entry "A" "a"]) "https://chat.example.org/hook"
         [entry "A" "a"] (emit (CallGetAll ["A"]) nothing))
    = inl (NotPublished 1 1)
  ∧ trace (snd (processChannel (rejecting [entry "A" "a"]) channel_event nothing))
    = [CallGetAll ["A"];
       CallPublish (wire "https://chat.example.org/hook" (entry "A" "a"))]
  ∧ fst (processChannel (rejecting [entry "A" "a"]) channel_event nothing)
    = inr ().
Proof.
  apply (processChannel_drops_tally (rejecting [entry "A" "a"]) channel_event
           {| Message := {| Data :=
                Encoded [ ("url", "https://example.org/feed.xml");
                          ("notify", "https://chat.example.org/hook") ] |} |}
           {| ChannelConfig.FeedURL := "https://example.org/feed.xml";
              ChannelConfig.NotifyURL := "https://chat.example.org/hook" |}
           {| gofeed.Items := [entry "A" "a"] |}
           [entry "A" "a"] nothing (emit (CallGetAll ["A"]) nothing));
    [reflexivity | reflexivity | reflexivity | reflexivity | reflexivity
    | vm_compute; reflexivity | vm_compute; reflexivity].
Defined.

(** C2.  Every message that [publishItem] hands to the topic, as the
    item processor decodes it: the notify URL and the five fields of an
    entry arrive, the feed name is the empty string. *)
Theorem dispatched_item_lacks_feed (env : Env) (notifyURL : string)
    (items : list gofeed.Item) (w : World) (evs : list Effect) (data : Bytes) :
  trace (snd (publishItem env notifyURL items w)) = (trace w ++ evs)%list →
  CallPublish data ∈ evs →
  ∃ item,
    item ∈ items
    ∧ ProcessItem.Unmarshal data
      = inr {| ProcessItem.FeedItem.NotifyURL := notifyURL;
               ProcessItem.FeedItem.Feed := "";
               ProcessItem.FeedItem.ID := gofeed.GUID item;
               ProcessItem.FeedItem.Updated := gofeed.Updated item;
               ProcessItem.FeedItem.Link := gofeed.Link item;
               ProcessItem.FeedItem.Title := gofeed.Title item;
               ProcessItem.FeedItem.Content := gofeed.Content item |}.
Proof.
  intros Hevs Hin.
  destruct (publishItem_world env notifyURL items w)
    as (_ & sent & Hsent & Htrace).
  rewrite Htrace in Hevs. apply app_inv_head in Hevs. subst evs.
  apply list_elem_of_fmap in Hin as (data' & [= ->] & Hin).
  apply list_elem_of_fmap in Hin as (item & -> & Hin).
  exists item. split; [|reflexivity].
  destruct Hsent as [-> | ->]; [by apply elem_of_nil in Hin | done].
Qed.

Lemma dispatched_item_lacks_feed_witness :
  ∃ item,
    item ∈ [entry "A" "a"]
    ∧ ProcessItem.Unmarshal (wire "https://chat.example.org/hook" (entry "A" "a"))
      = inr {| ProcessItem.FeedItem.NotifyURL := "https://chat.example.org/hook";
               ProcessItem.FeedItem.Feed := "";
               ProcessItem.FeedItem.ID := gofeed.GUID item;
               ProcessItem.FeedItem.Updated := gofeed.Updated item;
               ProcessItem.FeedItem.Link := gofeed.Link item;
               ProcessItem.FeedItem.Title := gofeed.Title item;
               ProcessItem.FeedItem.Content := gofeed.Content item |}.
Proof.
  apply (dispatched_item_lacks_feed (healthy []) "https://chat.example.org/hook"
           [entry "A" "a"] nothing
           [CallPublish (wire "https://chat.example.org/hook" (entry "A" "a"))]);
    [reflexivity | by left].
Defined.

(** ** Frame *)

(** C8.  An invocation of [processChannel] leaves the store as it was,
    and what it asks of the outside is nothing, or one batch read
    followed by publishes only. *)
Theorem processChannel_store_frame (env : Env) (e : Event) (w : World) :
  let w' := snd (processChannel env e w) in
  store w' = store w
  ∧ (trace w' = trace w
     ∨ ∃ ids msgs,
         trace w' = (trace w ++ CallGetAll ids :: (CallPublish <$> msgs))%list).
Proof.
  cbv zeta. unfold processChannel, bind, wrap, lift, discard, ret.
  destruct (DataAs e) as [err|msg]; [cbn; split; [done | by left]|].
  destruct (Unmarshal _) as [err|channelConfig]; [cbn; split; [done | by left]|].
  destruct (ParseURL env _) as [err|feed]; [cbn; split; [done | by left]|].
  destruct (removeOldItems_run env (gofeed.Items feed) w)
    as [[err ->]|[[err|items] ->]]; [cbn; split; [done | by left]| |].
  - cbn. split; [done|]. right.
    by exists (gofeed.GUID <$> gofeed.Items feed), [].
  - destruct (publishItem_world env (ChannelConfig.NotifyURL channelConfig)
                items (emit (CallGetAll (gofeed.GUID <$> gofeed.Items feed)) w))
      as (Hs & sent & _ & Ht).
    cbn [snd]. rewrite Hs, Ht. split; [done|]. right.
    exists (gofeed.GUID <$> gofeed.Items feed),
           (wire (ChannelConfig.NotifyURL channelConfig) <$> sent).
    cbn. by rewrite <- app_assoc.
Qed.

End ChannelProperties.

(** * Properties of the item processor *)

Module ItemProperties.
Import ProcessItem Examples.

(** ** The length bound *)

Lemma substring_prefix_length (n : nat) (s : string) :
  (n ≤ String.length s)%nat → String.length (String.substring 0 n s) = n.
Proof.
  revert s. induction n as [|n IH]; intros s Hn.
  - by destruct s.
  - destruct s as [|c s]; cbn in Hn |- *; [lia|].
    rewrite IH; [done | lia].
Qed.

Lemma substring_prefix_split (n : nat) (s : string) :
  (n ≤ String.length s)%nat → ∃ rest, s = String.substring 0 n s +:+ rest.
Proof.
  revert s. induction n as [|n IH]; intros s Hn.
  - exists s. by destruct s.
  - destruct s as [|c s]; cbn in Hn |- *; [lia|].
    destruct (IH s) as [rest Hrest]; [lia|].
    exists rest. exact (f_equal (String c) Hrest).
Qed.

(** [trim] never panics: the slice is taken only from a longer text. *)
Lemma trim_cases (text : string) :
  ∃ sent, trim text = inr sent
    ∧ ((4000 < Go.len text)%nat →
         Go.len sent = 4000 ∧ ∃ rest, text = sent +:+ rest)
    ∧ ((Go.len text ≤ 4000)%nat → sent = text).
Proof.
  unfold trim, Go.slice_to, Go.len.
  destruct (4000 <? String.length text)%nat eqn:Hlt.
  - apply Nat.ltb_lt in Hlt.
    destruct (4000 <=? String.length text)%nat eqn:Hle.
    2:{ apply Nat.leb_gt in Hle. lia. }
    eexists. split; [reflexivity|]. split; [|lia].
    intros _. split.
    + apply substring_prefix_length. lia.
    + apply substring_prefix_split. lia.
  - apply Nat.ltb_ge in Hlt. exists text. split; [done|]. split; [lia|done].
Qed.

(** What [notify] does once the text has been converted. *)
Lemma notify_run (lib : md.Library) (env : Env) (item : FeedItem.t)
    (w : World) (text sent : string) :
  htmlToMarkdown lib (FeedItem.Content item) = inr text →
  trim (Sprintf (FeedItem.Feed item) (FeedItem.Link item)
                (FeedItem.Title item) text) = inr sent →
  let body := Encoded [("text", json_string sent)] in
  notify lib env item w
  = (match http_Post env (FeedItem.NotifyURL item) body with
     | inl err => inl (Wrapped "error making http request" err)
     | inr resp =>
         if (StatusCode resp =? 200)%Z then inr ()
         else inl (ResponseStatus (Status resp) (Body resp))
     end,
     emit (CallPost (FeedItem.NotifyURL item) body) w).
Proof.
  intros Hmd Htrim body.
  unfold notify. cbv [bind wrap lift]. rewrite Hmd, Htrim.
  cbv [bind wrap lift Post perform Marshal ret fail].
  rewrite fmap_cons, fmap_nil. cbn [fst snd].
  change (json_string "text") with "text". fold body.
  destruct (http_Post env _ body) as [err|resp]; [done|].
  by destruct (StatusCode resp =? 200)%Z.
Qed.







(** The same run, in numbers: 4002 bytes are posted, the last three of
    them U+FFFD. *)
Example notify_splits_character :
  let posted := json_string
                  (String.substring 0 4000
                     (Sprintf "News" "https://example.org/A" "tt"
                              (accents 2100))) in
  trace (snd (notify plain (webhook 200) (post "tt" (accents 2100)) nothing))
    = [CallPost "https://chat.example.org/hook" (Encoded [("text", posted)])]
  ∧ Go.len posted = 4002
  ∧ drop 3999 (Go.bytes_of posted) = [239; 191; 189].
Proof. vm_compute. repeat split; reflexivity. Qed.

(** ** Write after send *)

Lemma notify_transform_error (lib : md.Library) (env : Env)
    (item : FeedItem.t) (w : World) (err : error) :
  htmlToMarkdown lib (FeedItem.Content item) = inl err →
  notify lib env item w
  = (inl (Wrapped "failed converting to markdown" err), w).
Proof. intros Hmd. unfold notify. cbv [bind wrap lift]. by rewrite Hmd. Qed.

Lemma save_run (env : Env) (item : FeedItem.t) (w : World) :
  save env item w
  = match firestore_NewClient env with
    | Some err => (inl (Wrapped "firestore client error" err), w)
    | None =>
        let w1 := emit (CallSet (FeedItem.ID item) (record item)) w in
        match Set_error env with
        | Some err => (inl (Wrapped "failed writing to firestore" err), w1)
        | None =>
            (inr (),
             {| store := <[FeedItem.ID item :=
                             record item ∪ default ∅ (store w !! FeedItem.ID item)]>
                           (store w);
                trace := trace w1 |})
        end
    end.
Proof.
  unfold save, doc_Set. cbv [bind wrap check perform ret fail].
  destruct (firestore_NewClient env); [done|].
  by destruct (Set_error env).
Qed.

Lemma processItem_run (lib : md.Library) (env : Env) (e : Event)
    (msg : MessagePublishedData) (item : FeedItem.t) (w : World) :
  DataAs e = inr msg →
  Unmarshal (Data (Message msg)) = inr item →
  processItem lib env e w
  = match notify lib env item w with
    | (inl err, w1) => (inl (Wrapped "failed sending notification" err), w1)
    | (inr _, w1) =>
        match save env item w1 with
        | (inl err, w2) => (inl (Wrapped "failed updating record" err), w2)
        | (inr _, w2) => (inr (), w2)
        end
    end.
Proof.
  intros Hmsg Hitem. unfold processItem. cbv [bind wrap lift ret].
  rewrite Hmsg, Hitem.
  destruct (notify lib env item w) as [[err|[]] w1]; [done|].
  by destruct (save env item w1) as [[err|[]] w2].
Qed.

Lemma aborted_after_post (url : string) (body : Bytes) (err : error)
    (w : World) :
  aborted_unwritten (inl err) w (emit (CallPost url body) w).
Proof.
  split; [by eexists|]. split; [done|].
  exists [CallPost url body]. split; [done|].
  intros id fields Hin%list_elem_of_singleton. discriminate Hin.
Qed.

Lemma aborted_at_once (err : error) (w : World) :
  aborted_unwritten (inl err) w w.
Proof.
  split; [by eexists|]. split; [done|].
  exists []. split; [by rewrite app_nil_r|].
  intros id fields Hin. by apply elem_of_nil in Hin.
Qed.

(** C5.  For an event that decodes to [item]: a transform error, a
    transport error and an answer other than 200 each end the invocation
    with an error, the store unchanged and no write asked for; a write is
    asked for, or the store differs, only if the webhook answered 200;
    and after a 200 the write of the item's record follows the POST. *)
Theorem processItem_write_after_send (lib : md.Library) (env : Env)
    (e : Event) (msg : MessagePublishedData) (item : FeedItem.t) (w : World) :
  DataAs e = inr msg →
  Unmarshal (Data (Message msg)) = inr item →
  let r := fst (processItem lib env e w) in
  let w' := snd (processItem lib env e w) in
  let url := FeedItem.NotifyURL item in
  let assembled text :=
    trim (Sprintf (FeedItem.Feed item) (FeedItem.Link item)
                  (FeedItem.Title item) text) in
  (* a transform error *)
  (∀ err, htmlToMarkdown lib (FeedItem.Content item) = inl err →
          aborted_unwritten r w w')
  (* a transport error *)
  ∧ (∀ text sent err,
       htmlToMarkdown lib (FeedItem.Content item) = inr text →
       assembled text = inr sent →
       http_Post env url (Encoded [("text", json_string sent)]) = inl err →
       aborted_unwritten r w w')
  (* an answer other than 200 *)
  ∧ (∀ text sent resp,
       htmlToMarkdown lib (FeedItem.Content item) = inr text →
       assembled text = inr sent →
       http_Post env url (Encoded [("text", json_string sent)]) = inr resp →
       StatusCode resp ≠ 200%Z →
       aborted_unwritten r w w')
  (* a write, or a changed store, only after a 200 *)
  ∧ (∀ evs, trace w' = (trace w ++ evs)%list →
       store w' ≠ store w ∨ (∃ id fields, CallSet id fields ∈ evs) →
       delivered lib env item)
  (* and after a 200 the record is written, behind the POST *)
  ∧ (delivered lib env item →
     firestore_NewClient env = None →
     (∃ body, trace w' = (trace w ++ [CallPost url body;
                                      CallSet (FeedItem.ID item) (record item)])%list)
     ∧ (Set_error env = None →
        r = inr ()
        ∧ store w' !! FeedItem.ID item
          = Some (record item ∪ default ∅ (store w !! FeedItem.ID item)))).
Proof.
  intros Hmsg Hitem r w' url assembled. subst r w'.
  rewrite (processItem_run lib env e msg item w Hmsg Hitem).
  destruct (htmlToMarkdown lib (FeedItem.Content item)) as [err0|text0] eqn:Hmd.
  { (* nothing was sent *)
    rewrite (notify_transform_error lib env item w err0 Hmd). cbn [fst snd].
    split; [intros; apply aborted_at_once|].
    split; [intros ??? [=]|]. split; [intros ??? [=]|].
    split.
    - intros evs Hevs [Hst|(id & fields & Hin)]; [done|].
      apply (f_equal length) in Hevs. rewrite length_app in Hevs.
      destruct evs; [by apply elem_of_nil in Hin | cbn in Hevs; lia].
    - intros (? & ? & ? & Ht & _). congruence. }
  destruct (trim_cases (Sprintf (FeedItem.Feed item) (FeedItem.Link item)
                                (FeedItem.Title item) text0))
    as (sent0 & Htrim & _).
  rewrite (notify_run lib env item w text0 sent0 Hmd Htrim). fold url.
  split; [intros ? [=]|].
  destruct (http_Post env url (Encoded [("text", json_string sent0)])) as [err0|resp0] eqn:Hpost.
  { (* the request did not go through *)
    cbn [fst snd].
    split; [intros; apply aborted_after_post|].
    split; [intros; apply aborted_after_post|].
    split.
    - intros evs Hevs [Hst|(id & fields & Hin)]; [done|].
      cbn in Hevs. apply app_inv_head in Hevs. subst evs.
      apply list_elem_of_singleton in Hin. discriminate Hin.
    - intros (text & sent & resp & Ht & Hs & Hp & _).
      rewrite Hmd in Ht. injection Ht as <-.
      rewrite Htrim in Hs. injection Hs as <-.
      fold url in Hp. congruence. }
  destruct (StatusCode resp0 =? 200)%Z eqn:Hcode.
  2:{ (* refused *)
    apply Z.eqb_neq in Hcode. cbn [fst snd].
    split; [intros; apply aborted_after_post|].
    split; [intros; apply aborted_after_post|].
    split.
    - intros evs Hevs [Hst|(id & fields & Hin)]; [done|].
      cbn in Hevs. apply app_inv_head in Hevs. subst evs.
      apply list_elem_of_singleton in Hin. discriminate Hin.
    - intros (text & sent & resp & Ht & Hs & Hp & Hok).
      rewrite Hmd in Ht. injection Ht as <-.
      rewrite Htrim in Hs. injection Hs as <-.
      fold url in Hp. congruence. }
  (* delivered *)
  apply Z.eqb_eq in Hcode.
  assert (Hdel : delivered lib env item).
  { exists text0, sent0, resp0. by fold url. }
  split.
  { intros text sent err [= <-] Hs. unfold assembled in Hs.
    rewrite Htrim in Hs. injection Hs as <-. congruence. }
  split.
  { intros text sent resp [= <-] Hs. unfold assembled in Hs.
    rewrite Htrim in Hs. injection Hs as <-. congruence. }
  split; [by intros|].
  intros _ Hclient. rewrite save_run, Hclient.
  destruct (Set_error env) as [err|]; cbn.
  - split; [|intros [=]]. eexists. by rewrite <- app_assoc.
  - split; [eexists; by rewrite <- app_assoc|].
    intros _. split; [done|]. apply lookup_insert_eq.
Qed.

Lemma processItem_write_after_send_witness :
  aborted_unwritten
    (fst (processItem plain (webhook 503) (item_event "t" "hello") nothing))
    nothing
    (snd (processItem plain (webhook 503) (item_event "t" "hello") nothing)).
Proof.
  pose proof (processItem_write_after_send plain (webhook 503)
                (item_event "t" "hello")
                {| Message := {| Data :=
                     Encoded [ ("notify", "https://chat.example.org/hook");
                               ("feed", "News"); ("id", "A"); ("updated", "");
                               ("link", "https://example.org/A");
                               ("title", "t"); ("content", "hello") ] |} |}
                (post "t" "hello") nothing eq_refl eq_refl) as H.
  cbv zeta in H. destruct H as (_ & _ & H & _).
  eapply H; [reflexivity | reflexivity | reflexivity | ].
  vm_compute. discriminate.
Defined.

(** ** The anchor rule *)


Lemma eqb_false_of_neq (s t : string) : s ≠ t → (s =? t) = false.
Proof. intros H. by apply String.eqb_neq. Qed.

(** *** The walk of the converter *)




















(** The same documents, converted: the anchor without text leaves no
    trace between its siblings, and an anchor that has only an
    [aria-label] is a link around the label. *)
Example anchor_omitted_between_siblings :
  htmlToMarkdown
    (page [md.Text bare "see ";
           md.Element "a" (anchor [("href", "https://x")]) [];
           md.Text bare "docs"])
    "see <a href=https://x></a>docs"
  = inr "see docs".
Proof. reflexivity. Qed.

Example anchor_labelled :
  htmlToMarkdown
    (page [md.Element "a"
             (anchor [("href", "https://x"); ("aria-label", "Home")]) []])
    "<a href=https://x aria-label=Home></a>"
  = inr "<https://x|Home>".
Proof. reflexivity. Qed.

(** An anchor with nothing to show. *)
Example anchor_suppressed :
  anchorReplacement plain "" (anchor [("href", "https://x")])
                    {| md.StrongDelimiter := "*" |}
  = (md.zero, true).
Proof. reflexivity. Qed.

(** A [title] attribute that is present and empty is taken as it is: the
    [aria-label] is not consulted. *)
Example anchor_empty_title_hides_label :
  anchorReplacement plain ""
    (anchor [("href", "https://x"); ("title", ""); ("aria-label", "Home")])
    {| md.StrongDelimiter := "*" |}
  = (md.zero, true).
Proof. reflexivity. Qed.

(** ** Empty content *)





End ItemProperties.

(** * Further properties *)

(** ** The channel processor *)

Module ChannelExtras.
Import ProcessChannel Examples ChannelProperties.

(** The entries that come back from [removeOldItems] are entries of the
    input whose identifier has no document. *)
Lemma removeOldItems_members (env : Env) (items : list gofeed.Item) (w : World) :
  firestore_NewClient env = None →
  GetAll_error env = None →
  ∃ out,
    removeOldItems env items w
      = (inr out, emit (CallGetAll (gofeed.GUID <$> items)) w)
    ∧ ∀ it, it ∈ out → it ∈ items ∧ store w !! gofeed.GUID it = None.
Proof.
  intros Hclient Hread.
  unfold removeOldItems. rewrite collect_fold.
  unfold client_GetAll, bind, wrap, check, perform, get_store, ret.
  rewrite Hclient, Hread. cbn [fst snd app].
  eexists. split; [reflexivity|].
  intros it. rewrite (order_perm (scheduler env)), list_elem_of_fmap.
  intros [[k v] [-> Hkv%elem_of_map_to_list]]. cbn [snd].
  apply prune_lookup in Hkv as [Hkv Hin].
  apply itemMap_lookup in Hkv as [(l1 & l2 & -> & <- & _)|[_ Hkv]];
    [|by rewrite lookup_empty in Hkv].
  assert (Hv : v ∈ (l1 ++ v :: l2)%list).
  { apply elem_of_app. right. left. }
  split; [done|]. apply Hin. by apply list_elem_of_fmap_2.
Qed.

(** X1.  An invocation of [processChannel] that ends with an error has
    published nothing, and the error is one of the four wrapped ones of
    the steps before the fan-out. *)
Theorem processChannel_error_publishes_nothing (env : Env) (e : Event)
    (w : World) (err : error) :
  fst (processChannel env e w) = inl err →
  (∃ context cause,
     err = Wrapped context cause
     ∧ context ∈ ["event.DataAs"; "failed parsing JSON"; "failed parsing feed";
                  "failed processing items"])
  ∧ ∃ evs, trace (snd (processChannel env e w)) = (trace w ++ evs)%list
           ∧ ∀ data, CallPublish data ∉ evs.
Proof.
  unfold processChannel, bind, wrap, lift, discard, ret.
  destruct (DataAs e) as [err0|msg].
  { cbn. intros [= <-]. split.
    - eexists _, _. split; [done|]. set_solver.
    - exists []. split; [by rewrite app_nil_r|]. intros ? ?%elem_of_nil. done. }
  destruct (Unmarshal _) as [err0|channelConfig].
  { cbn. intros [= <-]. split.
    - eexists _, _. split; [done|]. set_solver.
    - exists []. split; [by rewrite app_nil_r|]. intros ? ?%elem_of_nil. done. }
  destruct (ParseURL env _) as [err0|feed].
  { cbn. intros [= <-]. split.
    - eexists _, _. split; [done|]. set_solver.
    - exists []. split; [by rewrite app_nil_r|]. intros ? ?%elem_of_nil. done. }
  destruct (removeOldItems_run env (gofeed.Items feed) w)
    as [[err0 ->]|[[err0|items] ->]]; cbn [fst snd].
  - intros [= <-]. split.
    + eexists _, _. split; [done|]. set_solver.
    + exists []. split; [by rewrite app_nil_r|]. intros ? ?%elem_of_nil. done.
  - intros [= <-]. split.
    + eexists _, _. split; [done|]. set_solver.
    + eexists. split; [reflexivity|].
      intros data Hin%list_elem_of_singleton. discriminate Hin.
  - intros [=].
Qed.

Lemma processChannel_error_publishes_nothing_witness :
  ∃ evs, trace (snd (processChannel (healthy []) broken_event nothing))
         = ([] ++ evs)%list
         ∧ ∀ data, CallPublish data ∉ evs.
Proof.
  exact (proj2 (processChannel_error_publishes_nothing (healthy []) broken_event
                  nothing _ eq_refl)).
Defined.


Lemma no_failure_iff (results : list (error + string)) :
  length (filter (λ r, failed r = true) results) = 0
  ↔ Forall (λ r, failed r = false) results.
Proof.
  induction results as [|r results IH].
  - split; [by constructor | done].
  - destruct r as [e|id].
    + rewrite filter_cons_True by done. split; [done|].
      intros H. apply Forall_cons in H as [[=] _].
    + rewrite filter_cons_False by done. rewrite IH. split.
      * intros H. by constructor.
      * intros H. by apply Forall_cons in H as [_ H].
Qed.

(** X2.  With the topic client made, [publishItem] returns [nil] exactly
    when no publish failed; otherwise it returns the aggregate error with
    the number [k] of failed publishes, [0 < k <= n], and the number [n]
    of items.  Every item has been handed to the topic in input order,
    and the result is the same on any platform that gives the same
    answers, whatever the order in which the goroutines finish. *)
Theorem publishItem_reports_failures (env : Env) (notifyURL : string)
    (items : list gofeed.Item) (w : World) :
  pubsub_NewClient env = None →
  (Z.of_nat (length items) < 2 ^ 64)%Z →
  let results := answers env notifyURL items 0 in
  let k := Z.of_nat (length (filter (λ r, failed r = true) results)) in
  let n := Z.of_nat (length items) in
  let r := fst (publishItem env notifyURL items w) in
  (r = inr () ↔ Forall (λ a, failed a = false) results)
  ∧ (r ≠ inr () → r = inl (NotPublished k n) ∧ (0 < k ≤ n)%Z)
  ∧ trace (snd (publishItem env notifyURL items w))
    = (trace w ++ (CallPublish <$> (wire notifyURL <$> items)))%list
  ∧ (∀ env' : Env,
       pubsub_NewClient env' = None →
       (∀ i data, PublishResult_Get env' i data = PublishResult_Get env i data) →
       fst (publishItem env' notifyURL items w) = r).
Proof.
  intros Hclient Hlen results k n r. subst r.
  rewrite (publishItem_tally env notifyURL items w Hclient Hlen).
  fold results k n. cbn [fst snd].
  assert (Hk : (k ≤ n)%Z).
  { subst k n results. pose proof (length_filter (λ r, failed r = true)
      (answers env notifyURL items 0)) as Hle.
    unfold answers in Hle at 2. rewrite length_imap in Hle. lia. }
  assert (Hzero : k = 0%Z ↔ Forall (λ a, failed a = false) results).
  { rewrite <- no_failure_iff. subst k. lia. }
  split; [|split; [|split]].
  - rewrite <- Hzero. destruct (0 <? k)%Z eqn:Hlt.
    + apply Z.ltb_lt in Hlt. split; [done | lia].
    + apply Z.ltb_ge in Hlt. split; [lia | done].
  - destruct (0 <? k)%Z eqn:Hlt; [|done].
    apply Z.ltb_lt in Hlt. intros _. split; [done | lia].
  - done.
  - intros env' Hclient' Hsame.
    rewrite (publishItem_tally env' notifyURL items w Hclient' Hlen).
    cbn [fst]. replace (answers env' notifyURL items 0) with results; [done|].
    subst results. unfold answers. apply imap_ext. intros i x _. by rewrite Hsame.
Qed.

Lemma publishItem_reports_failures_witness :
  fst (publishItem (rejecting []) "https://chat.example.org/hook"
         [entry "A" "a"; entry "B" "b"] nothing)
  = inl (NotPublished 2 2).
Proof.
  pose proof (publishItem_reports_failures (rejecting [])
                "https://chat.example.org/hook"
                [entry "A" "a"; entry "B" "b"] nothing eq_refl) as H.
  cbv zeta in H. destruct H as (_ & H & _); [vm_compute; reflexivity|].
  apply H. vm_compute. discriminate.
Defined.

(** X3.  For a feed whose entries all have a record, [processChannel]
    asks for the one batch read, publishes nothing and returns [nil]. *)
Theorem processChannel_nothing_new (env : Env) (e : Event)
    (msg : MessagePublishedData) (channelConfig : ChannelConfig.t)
    (feed : gofeed.Feed) (w : World) :
  DataAs e = inr msg →
  Unmarshal (Data (Message msg)) = inr channelConfig →
  ParseURL env (ChannelConfig.FeedURL channelConfig) = inr feed →
  firestore_NewClient env = None →
  GetAll_error env = None →
  (∀ it, it ∈ gofeed.Items feed → is_Some (store w !! gofeed.GUID it)) →
  fst (processChannel env e w) = inr ()
  ∧ store (snd (processChannel env e w)) = store w
  ∧ trace (snd (processChannel env e w))
    = (trace w ++ [CallGetAll (gofeed.GUID <$> gofeed.Items feed)])%list.
Proof.
  intros Hmsg Hcfg Hfeed Hclient Hread Hseen.
  destruct (removeOldItems_members env (gofeed.Items feed) w Hclient Hread)
    as (out & Hrun & Hout).
  assert (out = []) as ->.
  { destruct out as [|it out]; [done|].
    destruct (Hout it (list_elem_of_here _ _)) as [Hin Hnone].
    destruct (Hseen it Hin) as [doc Hdoc]. congruence. }
  unfold processChannel, bind, wrap, lift, discard, ret.
  rewrite Hmsg, Hcfg, Hfeed, Hrun. cbn [fst snd].
  destruct (publishItem_world env (ChannelConfig.NotifyURL channelConfig) []
              (emit (CallGetAll (gofeed.GUID <$> gofeed.Items feed)) w))
    as (Hs & sent & Hsent & Ht).
  split; [done|]. rewrite Hs, Ht. split; [done|].
  assert (sent = []) as -> by (by destruct Hsent).
  rewrite !fmap_nil. by rewrite app_nil_r.
Qed.

Lemma processChannel_nothing_new_witness :
  trace (snd (processChannel (healthy [entry "A" "a"]) channel_event
                {| store := seen "A"; trace := [] |}))
  = [CallGetAll ["A"]].
Proof.
  refine (proj2 (proj2 (processChannel_nothing_new (healthy [entry "A" "a"])
            channel_event channel_message channel_config
            {| gofeed.Items := [entry "A" "a"] |}
            {| store := seen "A"; trace := [] |}
            eq_refl eq_refl eq_refl eq_refl eq_refl _))).
  intros it Hin. apply list_elem_of_singleton in Hin. subst it.
  vm_compute. eauto.
Defined.

(** A field that no member goes to keeps the zero value. *)
Lemma member_absent (k : string) (members : list (string * string)) :
  (∀ k' v, (k', v) ∈ members → names_field k' k = false) →
  member k members = "".
Proof.
  unfold member. generalize "" as acc.
  induction members as [|[k' v'] members IH]; intros acc Habs; [done|].
  cbn [fold_left fst snd].
  rewrite (Habs k' v') by left.
  apply IH. intros k'' v Hin. apply (Habs k'' v). by right.
Qed.

(** X4.  A configuration none of whose members goes to the [notify]
    field (no name that is [notify] up to the case of its letters) is
    not rejected: every message then published carries the empty notify
    URL. *)
Theorem processChannel_without_notify (env : Env) (e : Event)
    (members : list (string * string)) (w : World)
    (evs : list Effect) (data : Bytes) :
  DataAs e = inr {| Message := {| Data := Encoded members |} |} →
  (∀ k v, (k, v) ∈ members → names_field k "notify" = false) →
  trace (snd (processChannel env e w)) = (trace w ++ evs)%list →
  CallPublish data ∈ evs →
  ∃ item, data = wire "" item
          ∧ ∃ received, ProcessItem.Unmarshal data = inr received
                        ∧ ProcessItem.FeedItem.NotifyURL received = "".
Proof.
  intros Hmsg Habs Hevs Hin.
  unfold processChannel, bind, wrap, lift, discard, ret in Hevs.
  rewrite Hmsg in Hevs. cbn [Data Message Unmarshal] in Hevs.
  rewrite (member_absent "notify" members Habs) in Hevs.
  cbn [ChannelConfig.FeedURL ChannelConfig.NotifyURL] in Hevs.
  destruct (ParseURL env _) as [err|feed].
  { cbn in Hevs. rewrite <- (app_nil_r (trace w)) in Hevs at 1.
    apply app_inv_head in Hevs. subst evs. by apply elem_of_nil in Hin. }
  destruct (removeOldItems_run env (gofeed.Items feed) w)
    as [[err Hrun]|[[err|items] Hrun]]; rewrite Hrun in Hevs; cbn [fst snd] in Hevs.
  - rewrite <- (app_nil_r (trace w)) in Hevs at 1.
    apply app_inv_head in Hevs. subst evs. by apply elem_of_nil in Hin.
  - cbn in Hevs. apply app_inv_head in Hevs. subst evs.
    apply list_elem_of_singleton in Hin. discriminate Hin.
  - destruct (publishItem_world env "" items
                (emit (CallGetAll (gofeed.GUID <$> gofeed.Items feed)) w))
      as (_ & sent & _ & Ht).
    rewrite Ht in Hevs. cbn [emit trace] in Hevs.
    rewrite <- app_assoc in Hevs. apply app_inv_head in Hevs. subst evs.
    apply elem_of_cons in Hin as [[=]|Hin].
    apply list_elem_of_fmap in Hin as (data' & [= ->] & Hin).
    apply list_elem_of_fmap in Hin as (item & -> & Hin).
    exists item. split; [done|]. by eexists.
Qed.

Lemma processChannel_without_notify_witness :
  ∃ item, wire "" (entry "A" "a") = wire "" item
          ∧ ∃ received,
              ProcessItem.Unmarshal (wire "" (entry "A" "a")) = inr received
              ∧ ProcessItem.FeedItem.NotifyURL received = "".
Proof.
  apply (processChannel_without_notify (healthy [entry "A" "a"]) bare_event
           [("url", "https://example.org/feed.xml")] nothing
           [CallGetAll ["A"]; CallPublish (wire "" (entry "A" "a"))]).
  - reflexivity.
  - intros k v Hin. apply list_elem_of_singleton in Hin.
    injection Hin as -> ->. reflexivity.
  - vm_compute. reflexivity.
  - right. left.
Defined.

End ChannelExtras.
(** ** The channel lister *)

Module ListProperties.
Import ListChannels Examples.

(** One call of [publishChannel] publishes the encoded document when the
    topic client is made and the document encodes, and nothing otherwise;
    what [result.Get] answers changes the returned error only. *)
Lemma publishChannel_world (env : Env) (i : nat) (channel : Channel) (w : World) :
  snd (publishChannel env i channel w)
  = match pubsub_NewClient env i, Marshal channel with
    | None, inr channelJson => emit (CallPublish channelJson) w
    | _, _ => w
    end.
Proof.
  unfold publishChannel. cbv [bind wrap check lift perform ret fail].
  destruct (pubsub_NewClient env i); [done|].
  destruct (Marshal channel) as [err|channelJson]; [done|].
  by destruct (PublishResult_Get env i channelJson).
Qed.

Lemma each_channel_run (env : Env) (docs : list Channel) (i : nat) (w : World) :
  ∃ evs,
    each_channel env docs i w
      = (inr (), {| store := store w; trace := (trace w ++ evs)%list |})
    ∧ ∀ ev, ev ∈ evs ↔
        ∃ j channel channelJson,
          docs !! j = Some channel
          ∧ Marshal channel = inr channelJson
          ∧ pubsub_NewClient env (i + j) = None
          ∧ ev = CallPublish channelJson.
Proof.
  revert i w. induction docs as [|channel docs IH]; intros i w.
  - exists []. split.
    + cbn. rewrite app_nil_r. by destruct w.
    + intros ev. split; [by intros ?%elem_of_nil|].
      intros (j & ? & ? & Hj & _). by rewrite lookup_nil in Hj.
  - cbn [each_channel]. unfold bind at 1, discard.
    rewrite publishChannel_world.
    set (w1 := match pubsub_NewClient env i with | Some _ => w | None => _ end).
    destruct (IH (S i) w1) as (evs & Hrun & Hevs). rewrite Hrun.
    assert (Hhere : ∀ ev j, (∃ channel' channelJson,
                (channel :: docs) !! j = Some channel'
                ∧ Marshal channel' = inr channelJson
                ∧ pubsub_NewClient env (i + j) = None
                ∧ ev = CallPublish channelJson)
              ↔ (j = 0 ∧ ∃ channelJson, Marshal channel = inr channelJson
                         ∧ pubsub_NewClient env i = None
                         ∧ ev = CallPublish channelJson)
                ∨ (∃ j', j = S j' ∧ ∃ channel' channelJson,
                     docs !! j' = Some channel'
                     ∧ Marshal channel' = inr channelJson
                     ∧ pubsub_NewClient env (S i + j') = None
                     ∧ ev = CallPublish channelJson)).
    { intros ev j. destruct j as [|j']; cbn [lookup list_lookup].
      - rewrite Nat.add_0_r. split.
        + intros (c & b & [= <-] & ? & ? & ?). left. eauto.
        + intros [[_ (b & ? & ? & ?)]|(j' & [=] & _)]. eauto 6.
      - replace (i + S j') with (S i + j') by lia. split.
        + intros (c & b & ? & ? & ? & ?). right. exists j'. eauto 8.
        + intros [[[=] _]|(j'' & [= <-] & c & b & ? & ? & ? & ?)]. eauto 8. }
    subst w1.
    destruct (pubsub_NewClient env i) as [err|] eqn:Hclient;
      [|destruct (Marshal channel) as [err|channelJson] eqn:Hjson].
    + exists evs. split; [done|]. intros ev. rewrite Hevs. split.
      * intros (j & c & b & ?). exists (S j). apply Hhere. right. eauto 8.
      * intros (j & c & b & H).
        assert (H' := proj1 (Hhere ev j) (ex_intro _ c (ex_intro _ b H))).
        destruct H' as [[_ (? & _ & [=] & _)]|(j' & _ & c' & b' & ?)]. eauto 8.
    + exists evs. split; [done|]. intros ev. rewrite Hevs. split.
      * intros (j & c & b & ?). exists (S j). apply Hhere. right. eauto 8.
      * intros (j & c & b & H).
        assert (H' := proj1 (Hhere ev j) (ex_intro _ c (ex_intro _ b H))).
        destruct H' as [[_ (? & [=] & _)]|(j' & _ & c' & b' & ?)]. eauto 8.
    + exists (CallPublish channelJson :: evs). split.
      { cbn [emit store trace]. by rewrite <- app_assoc. }
      intros ev. rewrite elem_of_cons, Hevs. split.
      * intros [->|(j & c & b & ?)].
        -- exists 0. apply Hhere. left. eauto 6.
        -- exists (S j). apply Hhere. right. eauto 8.
      * intros (j & c & b & H).
        assert (H' := proj1 (Hhere ev j) (ex_intro _ c (ex_intro _ b H))).
        destruct H' as [[_ (b' & [= <-] & _ & ->)]|(j' & _ & c' & b' & ?)];
          [by left | right; eauto 8].
Qed.

(** X5.  [listChannels] writes a response, and then [Success], exactly
    when the store client was made and the iteration ended without an
    error: no failure of a publish changes it.  It never changes the
    store, and without a store client it does nothing at all. *)
Theorem listChannels_response (env : Env) (w : World) :
  (fst (listChannels env w) = inr "Success"
   ↔ firestore_NewClient env = None ∧ iterator_end env = None)
  ∧ (∀ body, fst (listChannels env w) = inr body → body = "Success")
  ∧ store (snd (listChannels env w)) = store w
  ∧ (firestore_NewClient env ≠ None → snd (listChannels env w) = w).
Proof.
  unfold listChannels. cbv [bind wrap check ret fail].
  destruct (firestore_NewClient env) as [err|].
  { split; [split; [done | by intros [[=] _]]|]. split; [by intros ? [=]|done]. }
  destruct (each_channel_run env (Documents env) 0 w) as (evs & -> & _).
  destruct (iterator_end env) as [err|].
  - split; [split; [done | by intros [_ [=]]]|]. split; [by intros ? [=]|done].
  - split; [done|]. split; [by intros ? [= <-]|done].
Qed.

(** X6.  With the store client made, [listChannels] publishes every
    document for which the topic client is made and which encodes,
    whatever happens to the other documents, to its own publish or at the
    end of the iteration; it asks for nothing else. *)
Theorem listChannels_publishes_each (env : Env) (w : World)
    (evs : list Effect) :
  firestore_NewClient env = None →
  trace (snd (listChannels env w)) = (trace w ++ evs)%list →
  ∀ ev, ev ∈ evs ↔
    ∃ j channel channelJson,
      Documents env !! j = Some channel
      ∧ Marshal channel = inr channelJson
      ∧ pubsub_NewClient env j = None
      ∧ ev = CallPublish channelJson.
Proof.
  intros Hclient Htrace.
  unfold listChannels in Htrace. cbv [bind wrap check ret fail] in Htrace.
  rewrite Hclient in Htrace.
  destruct (each_channel_run env (Documents env) 0 w) as (evs' & Hrun & Hevs).
  rewrite Hrun in Htrace.
  assert (evs = evs') as ->.
  { destruct (iterator_end env); cbn in Htrace; by apply app_inv_head in Htrace. }
  exact Hevs.
Qed.

Lemma listChannels_publishes_each_witness :
  CallPublish (Encoded [ ("notify", "https://chat.example.org/hook");
                         ("url", "https://b.example.org/rss") ])
  ∈ [CallPublish (Encoded [ ("notify", "https://chat.example.org/hook");
                            ("url", "https://b.example.org/rss") ])].
Proof.
  apply (listChannels_publishes_each flaky_lister nothing _ eq_refl eq_refl).
  exists 1, (channel_doc "https://b.example.org/rss"). eexists.
  repeat split; reflexivity.
Defined.

End ListProperties.
(** ** The item processor *)

Module ItemExtras.
Import ProcessItem Examples ItemProperties.

(** The three ways [notify] can end. *)
Lemma notify_cases (lib : md.Library) (env : Env) (item : FeedItem.t) (w : World) :
  (∃ err, notify lib env item w = (inl err, w) ∧ ¬ delivered lib env item)
  ∨ (∃ err body,
       notify lib env item w
         = (inl err, emit (CallPost (FeedItem.NotifyURL item) body) w)
       ∧ ¬ delivered lib env item)
  ∨ (∃ body,
       notify lib env item w
         = (inr (), emit (CallPost (FeedItem.NotifyURL item) body) w)
       ∧ delivered lib env item).
Proof.
  destruct (htmlToMarkdown lib (FeedItem.Content item)) as [err|text] eqn:Hmd.
  { left. exists (Wrapped "failed converting to markdown" err).
    split; [by apply notify_transform_error|].
    intros (? & ? & ? & Ht & _). congruence. }
  destruct (trim_cases (Sprintf (FeedItem.Feed item) (FeedItem.Link item)
                                (FeedItem.Title item) text))
    as (sent & Htrim & _).
  rewrite (notify_run lib env item w text sent Hmd Htrim).
  destruct (http_Post env _ _) as [err|resp] eqn:Hpost.
  { right. left. eexists _, _. split; [reflexivity|].
    intros (text' & sent' & resp' & Ht & Hs & Hp & _).
    rewrite Hmd in Ht. injection Ht as <-.
    rewrite Htrim in Hs. injection Hs as <-. congruence. }
  destruct (StatusCode resp =? 200)%Z eqn:Hcode.
  - right. right. eexists. split; [reflexivity|].
    apply Z.eqb_eq in Hcode. by exists text, sent, resp.
  - right. left. eexists _, _. split; [reflexivity|].
    apply Z.eqb_neq in Hcode.
    intros (text' & sent' & resp' & Ht & Hs & Hp & Hok).
    rewrite Hmd in Ht. injection Ht as <-.
    rewrite Htrim in Hs. injection Hs as <-. congruence.
Qed.

(** X7.  What an invocation of [processItem] asks of the outside is
    nothing, or one POST to the notify URL of the decoded message, or
    that POST followed by one write of the message's record under its
    identifier; the store differs afterwards only in the last case and
    only when the result is [nil]. *)
Theorem processItem_effects (lib : md.Library) (env : Env) (e : Event)
    (w : World) :
  let w' := snd (processItem lib env e w) in
  ∃ evs,
    trace w' = (trace w ++ evs)%list
    ∧ (evs = []
       ∨ ∃ msg item body,
           DataAs e = inr msg
           ∧ Unmarshal (Data (Message msg)) = inr item
           ∧ (evs = [CallPost (FeedItem.NotifyURL item) body]
              ∨ evs = [CallPost (FeedItem.NotifyURL item) body;
                       CallSet (FeedItem.ID item) (record item)]))
    ∧ (store w' ≠ store w →
       fst (processItem lib env e w) = inr () ∧ length evs = 2).
Proof.
  cbv zeta.
  destruct (DataAs e) as [err|msg] eqn:Hmsg.
  { unfold processItem. cbv [bind wrap lift ret]. rewrite Hmsg. cbn.
    exists []. split; [by rewrite app_nil_r|]. split; [by left | done]. }
  destruct (Unmarshal (Data (Message msg))) as [err|item] eqn:Hitem.
  { unfold processItem. cbv [bind wrap lift ret]. rewrite Hmsg, Hitem. cbn.
    exists []. split; [by rewrite app_nil_r|]. split; [by left | done]. }
  rewrite (processItem_run lib env e msg item w Hmsg Hitem).
  destruct (notify_cases lib env item w)
    as [(err & -> & _)|[(err & body & -> & _)|(body & -> & _)]].
  - cbn. exists []. split; [by rewrite app_nil_r|]. split; [by left | done].
  - cbn. eexists. split; [reflexivity|].
    split; [right; exists msg, item, body; auto | done].
  - rewrite save_run.
    destruct (firestore_NewClient env) as [err|]; cbn.
    { eexists. split; [reflexivity|].
      split; [right; exists msg, item, body; auto | done]. }
    destruct (Set_error env) as [err|]; cbn.
    + eexists. split; [by rewrite <- app_assoc|].
      split; [right; exists msg, item, body; auto | done].
    + eexists. split; [by rewrite <- app_assoc|].
      split; [right; exists msg, item, body; auto | done].
Qed.

(** X14.  The error of [processItem] names the step that failed: the
    conversion, the request, or the answer of the webhook, and for a
    refused request it carries the status line and the response body. *)
Theorem processItem_error_causes (lib : md.Library) (env : Env) (e : Event)
    (msg : MessagePublishedData) (item : FeedItem.t) (w : World) :
  DataAs e = inr msg →
  Unmarshal (Data (Message msg)) = inr item →
  let r := fst (processItem lib env e w) in
  let sending cause := inl (Wrapped "failed sending notification" cause) in
  (∀ err, htmlToMarkdown lib (FeedItem.Content item) = inl err →
          r = sending (Wrapped "failed converting to markdown" err))
  ∧ (∀ text sent,
       htmlToMarkdown lib (FeedItem.Content item) = inr text →
       trim (Sprintf (FeedItem.Feed item) (FeedItem.Link item)
                     (FeedItem.Title item) text) = inr sent →
       match http_Post env (FeedItem.NotifyURL item)
                       (Encoded [("text", json_string sent)]) with
       | inl err => r = sending (Wrapped "error making http request" err)
       | inr resp =>
           StatusCode resp ≠ 200%Z →
           r = sending (ResponseStatus (Status resp) (Body resp))
       end).
Proof.
  intros Hmsg Hitem r sending. subst r sending.
  rewrite (processItem_run lib env e msg item w Hmsg Hitem). split.
  - intros err Hmd. by rewrite (notify_transform_error lib env item w err Hmd).
  - intros text sent Hmd Htrim.
    rewrite (notify_run lib env item w text sent Hmd Htrim).
    destruct (http_Post env _ _) as [err|resp]; [done|].
    intros Hcode. apply Z.eqb_neq in Hcode. by rewrite Hcode.
Qed.

Lemma processItem_error_causes_witness :
  fst (processItem plain (webhook 503) (item_event "t" "hello") nothing)
  = inl (Wrapped "failed sending notification" (ResponseStatus "" "")).
Proof.
  destruct (processItem_error_causes plain (webhook 503) (item_event "t" "hello")
              (item_message "t" "hello") (post "t" "hello") nothing
              eq_refl eq_refl) as [_ H].
  apply (H "hello" ("News <https://example.org/A|t>" +:+ Go.nl +:+ Go.nl +:+ "hello"));
    [reflexivity | reflexivity | vm_compute; discriminate].
Defined.

(** A successful invocation, in full. *)
Lemma processItem_success (lib : md.Library) (env : Env) (e : Event)
    (msg : MessagePublishedData) (item : FeedItem.t) (w : World) :
  DataAs e = inr msg →
  Unmarshal (Data (Message msg)) = inr item →
  fst (processItem lib env e w) = inr () →
  delivered lib env item
  ∧ store (snd (processItem lib env e w))
    = <[FeedItem.ID item :=
          record item ∪ default ∅ (store w !! FeedItem.ID item)]> (store w).
Proof.
  intros Hmsg Hitem.
  rewrite (processItem_run lib env e msg item w Hmsg Hitem).
  destruct (notify_cases lib env item w)
    as [(err & -> & _)|[(err & body & -> & _)|(body & -> & Hdel)]];
    [by intros [=] | by intros [=] |].
  rewrite save_run.
  destruct (firestore_NewClient env) as [err|]; [by intros [=]|].
  destruct (Set_error env) as [err|]; [by intros [=]|].
  done.
Qed.

(** X8.  [processItem] returns the error of a failed write exactly when
    the webhook answered 200 and the store client or the write failed;
    the store is then as before although the POST has been made. *)
Theorem processItem_persistence_failure (lib : md.Library) (env : Env)
    (e : Event) (msg : MessagePublishedData) (item : FeedItem.t) (w : World) :
  DataAs e = inr msg →
  Unmarshal (Data (Message msg)) = inr item →
  let r := fst (processItem lib env e w) in
  let w' := snd (processItem lib env e w) in
  ((∃ cause, r = inl (Wrapped "failed updating record" cause))
   ↔ delivered lib env item
     ∧ (firestore_NewClient env ≠ None ∨ Set_error env ≠ None))
  ∧ ((∃ cause, r = inl (Wrapped "failed updating record" cause)) →
     store w' = store w
     ∧ ∃ body, CallPost (FeedItem.NotifyURL item) body ∈ trace w').
Proof.
  intros Hmsg Hitem. cbv zeta.
  rewrite (processItem_run lib env e msg item w Hmsg Hitem).
  destruct (notify_cases lib env item w)
    as [(err & -> & Hnot)|[(err & body & -> & Hnot)|(body & -> & Hdel)]].
  - cbn. split; [split|]; [by intros [? [=]] | by intros [? _] | by intros [? [=]]].
  - cbn. split; [split|]; [by intros [? [=]] | by intros [? _] | by intros [? [=]]].
  - rewrite save_run.
    destruct (firestore_NewClient env) as [err|]; cbn.
    { split; [split|].
      - intros _. split; [done|]. by left.
      - intros _. by eexists.
      - intros _. split; [done|]. exists body. apply elem_of_app. right. left. }
    destruct (Set_error env) as [err|]; cbn.
    + split; [split|].
      * intros _. split; [done|]. by right.
      * intros _. by eexists.
      * intros _. split; [done|]. exists body.
        rewrite <- app_assoc. apply elem_of_app. right. left.
    + split; [split|].
      * by intros [? [=]].
      * by intros [_ [?|?]].
      * by intros [? [=]].
Qed.

Lemma processItem_persistence_failure_witness :
  store (snd (processItem plain readonly (item_event "t" "hello") nothing)) = ∅
  ∧ ∃ body, CallPost "https://chat.example.org/hook" body
            ∈ trace (snd (processItem plain readonly (item_event "t" "hello")
                            nothing)).
Proof.
  apply (processItem_persistence_failure plain readonly (item_event "t" "hello")
           (item_message "t" "hello") (post "t" "hello") nothing
           eq_refl eq_refl).
  eexists. vm_compute. reflexivity.
Defined.


(** The five fields of [record], and no other. *)
Lemma record_lookup (item : FeedItem.t) (field : string) :
  record item !! field
  = if decide (field = "id") then Some (FeedItem.ID item)
    else if decide (field = "lastUpdate") then Some (FeedItem.Updated item)
    else if decide (field = "title") then Some (FeedItem.Title item)
    else if decide (field = "content") then Some (FeedItem.Content item)
    else if decide (field = "link") then Some (FeedItem.Link item)
    else None.
Proof.
  unfold record. cbn [list_to_map foldr uncurry fst snd].
  repeat (case_decide; [subst; by simplify_map_eq|]).
  by simplify_map_eq.
Qed.

(** X9.  A successful invocation merges: the five fields of the item are
    written under its identifier, every other field of that document and
    every other document stay as they were. *)
Theorem processItem_merges_record (lib : md.Library) (env : Env) (e : Event)
    (msg : MessagePublishedData) (item : FeedItem.t) (w : World) :
  DataAs e = inr msg →
  Unmarshal (Data (Message msg)) = inr item →
  fst (processItem lib env e w) = inr () →
  let w' := snd (processItem lib env e w) in
  (∀ id, id ≠ FeedItem.ID item → store w' !! id = store w !! id)
  ∧ ∃ doc,
      store w' !! FeedItem.ID item = Some doc
      ∧ doc !! "id" = Some (FeedItem.ID item)
      ∧ doc !! "lastUpdate" = Some (FeedItem.Updated item)
      ∧ doc !! "title" = Some (FeedItem.Title item)
      ∧ doc !! "content" = Some (FeedItem.Content item)
      ∧ doc !! "link" = Some (FeedItem.Link item)
      ∧ ∀ field,
          field ∉ ["id"; "lastUpdate"; "title"; "content"; "link"] →
          doc !! field = default ∅ (store w !! FeedItem.ID item) !! field.
Proof.
  intros Hmsg Hitem Hok w'. subst w'.
  destruct (processItem_success lib env e msg item w Hmsg Hitem Hok) as [_ ->].
  split; [intros id Hne; by rewrite lookup_insert_ne|].
  eexists. split; [apply lookup_insert_eq|].
  repeat split;
    try (apply lookup_union_Some_l; by rewrite record_lookup).
  intros field Hfield. apply lookup_union_r. rewrite record_lookup.
  repeat (case_decide; [subst; exfalso; apply Hfield; set_solver|]). done.
Qed.

Lemma processItem_merges_record_witness :
  ∃ doc,
    store (snd (processItem plain (webhook 200) (item_event "t" "hello")
                  {| store := {[ "A" := {[ "seenBy" := "ops" ]} ]};
                     trace := [] |})) !! "A" = Some doc
    ∧ doc !! "title" = Some "t"
    ∧ doc !! "seenBy" = Some "ops".
Proof.
  destruct (processItem_merges_record plain (webhook 200)
              (item_event "t" "hello") (item_message "t" "hello")
              (post "t" "hello")
              {| store := {[ "A" := {[ "seenBy" := "ops" ]} ]}; trace := [] |}
              eq_refl eq_refl eq_refl)
    as (_ & doc & Hdoc & _ & _ & Htitle & _ & _ & Hrest).
  exists doc. split; [exact Hdoc|]. split; [exact Htitle|].
  rewrite Hrest; [reflexivity|].
  by apply (bool_decide_unpack _).
Defined.

(** X10.  Processing the same message once more, again with success,
    leaves the store as the first time left it. *)
Theorem processItem_twice (lib : md.Library) (env : Env) (e : Event)
    (msg : MessagePublishedData) (item : FeedItem.t) (w : World) :
  DataAs e = inr msg →
  Unmarshal (Data (Message msg)) = inr item →
  let w1 := snd (processItem lib env e w) in
  fst (processItem lib env e w) = inr () →
  fst (processItem lib env e w1) = inr () →
  store (snd (processItem lib env e w1)) = store w1.
Proof.
  intros Hmsg Hitem w1 Hok1 Hok2.
  destruct (processItem_success lib env e msg item w1 Hmsg Hitem Hok2) as [_ ->].
  subst w1.
  destruct (processItem_success lib env e msg item w Hmsg Hitem Hok1) as [_ ->].
  rewrite lookup_insert_eq. cbn [default].
  rewrite insert_insert_eq. unfold id.
  by rewrite (assoc_L (∪)), (idemp_L (∪)).
Qed.

Lemma processItem_twice_witness :
  store (snd (processItem plain (webhook 200) (item_event "t" "hello")
                (snd (processItem plain (webhook 200) (item_event "t" "hello")
                        nothing))))
  = store (snd (processItem plain (webhook 200) (item_event "t" "hello")
                  nothing)).
Proof.
  apply (processItem_twice plain (webhook 200) (item_event "t" "hello")
           (item_message "t" "hello") (post "t" "hello") nothing
           eq_refl eq_refl); vm_compute; reflexivity.
Defined.

(** ** The anchor rule, link branch *)

(** X12.  An anchor with a usable [href] and text of its own becomes the
    link token around that text as escaped by the library, with the
    quoted title behind the target; the rule is not passed over. *)
Theorem anchor_with_text (lib : md.Library) (content href : string)
    (selec : goquery.Selection) (opt : md.Options) :
  goquery.Attr selec "href" = (href, true) →
  Go.TrimSpace href ≠ "" →
  Go.TrimSpace href ≠ "#" →
  Go.TrimSpace (md.EscapeMultiLine lib content) ≠ "" →
  anchorReplacement lib content selec opt
  = ({| md.Header := "";
        md.Markdown :=
          md.AddSpaceIfNessesary lib selec
            ("<" +:+ href +:+ quotedTitle selec +:+ "|"
               +:+ md.EscapeMultiLine lib content +:+ ">");
        md.Footer := "" |}, false).
Proof.
  intros Hhref Hne Hnh Htext. unfold anchorReplacement. rewrite Hhref.
  rewrite (eqb_false_of_neq _ _ Hne), (eqb_false_of_neq _ _ Hnh).
  cbn [negb orb]. rewrite (eqb_false_of_neq _ _ Htext).
  assert (Hc : md.EscapeMultiLine lib content ≠ "").
  { intros Heq. apply Htext. by rewrite Heq. }
  by rewrite (eqb_false_of_neq _ _ Hc).
Qed.

Lemma anchor_with_text_witness :
  anchorReplacement plain "docs" (anchor [("href", "https://x")])
                    {| md.StrongDelimiter := "*" |}
  = ({| md.Header := ""; md.Markdown := "<https://x|docs>"; md.Footer := "" |},
     false).
Proof.
  apply (anchor_with_text plain "docs" "https://x"
           (anchor [("href", "https://x")]) {| md.StrongDelimiter := "*" |}
           eq_refl); vm_compute; discriminate.
Defined.

(** ** The title suffix *)

Lemma chars_append (s t : string) :
  list_ascii_of_string (s +:+ t)
  = (list_ascii_of_string s ++ list_ascii_of_string t)%list.
Proof.
  induction s as [|c s IH]; [done|].
  change (String c s +:+ t) with (String c (s +:+ t)). cbn. by rewrite IH.
Qed.

Lemma Replace_removes (s : string) (old : ascii) (new : string) :
  old ∉ list_ascii_of_string new →
  old ∉ list_ascii_of_string (Go.Replace s old new).
Proof.
  intros Hnew. induction s as [|c s IH]; cbn [Go.Replace].
  - apply not_elem_of_nil.
  - destruct (Ascii.eqb_spec c old) as [->|Hne].
    + rewrite chars_append, not_elem_of_app. done.
    + cbn. rewrite not_elem_of_cons. split; [congruence | done].
Qed.

Lemma Replace_keeps_out (s : string) (old c : ascii) (new : string) :
  c ∉ list_ascii_of_string s →
  c ∉ list_ascii_of_string new →
  c ∉ list_ascii_of_string (Go.Replace s old new).
Proof.
  intros Hs Hnew. induction s as [|a s IH]; cbn [Go.Replace].
  - apply not_elem_of_nil.
  - cbn in Hs. apply not_elem_of_cons in Hs as [Hne Hs].
    destruct (Ascii.eqb a old).
    + rewrite chars_append, not_elem_of_app. auto.
    + cbn. rewrite not_elem_of_cons. auto.
Qed.

(** X13.  Whatever the [title] attribute holds, the suffix built from it
    has no newline in it. *)
Theorem quotedTitle_single_line (selec : goquery.Selection) :
  "010"%char ∉ list_ascii_of_string (quotedTitle selec).
Proof.
  unfold quotedTitle. destruct (goquery.Attr selec "title") as [t [|]];
    [|apply not_elem_of_nil].
  rewrite !chars_append, !not_elem_of_app.
  assert (Hq : "010"%char ∉ list_ascii_of_string Go.dquote).
  { by apply (bool_decide_unpack _). }
  split; [by apply (bool_decide_unpack _)|]. split; [done|]. split; [|done].
  apply Replace_keeps_out.
  - apply Replace_removes. by apply (bool_decide_unpack _).
  - by apply (bool_decide_unpack _).
Qed.

End ItemExtras.

(** ** The two processors together *)

Module PipelineProperties.
Import Examples ChannelProperties ChannelExtras ItemProperties ItemExtras.

(** How [removeOldItems] ends: with an error, or with entries of the
    input whose identifier has no document. *)
Lemma removeOldItems_outcome (env : ProcessChannel.Env)
    (items : list gofeed.Item) (w : World) :
  (∃ err w1, ProcessChannel.removeOldItems env items w = (inl err, w1))
  ∨ (∃ out,
       ProcessChannel.removeOldItems env items w
         = (inr out, emit (CallGetAll (gofeed.GUID <$> items)) w)
       ∧ ∀ it, it ∈ out → it ∈ items ∧ store w !! gofeed.GUID it = None).
Proof.
  destruct (ProcessChannel.firestore_NewClient env) as [err|] eqn:Hclient.
  { left. unfold ProcessChannel.removeOldItems. rewrite collect_fold.
    cbv [bind wrap check fail]. rewrite Hclient. by eexists _, _. }
  destruct (ProcessChannel.GetAll_error env) as [err|] eqn:Hread.
  { left. unfold ProcessChannel.removeOldItems. rewrite collect_fold.
    unfold ProcessChannel.client_GetAll.
    cbv [bind wrap check fail ret perform get_store].
    rewrite Hclient, Hread. by eexists _, _. }
  right. by apply removeOldItems_members.
Qed.

(** What the item processor decodes from the bytes published for an
    entry. *)
Lemma Unmarshal_wire (notifyURL : string) (item : gofeed.Item) :
  ProcessItem.Unmarshal (ProcessChannel.wire notifyURL item)
  = inr {| ProcessItem.FeedItem.NotifyURL := notifyURL;
           ProcessItem.FeedItem.Feed := "";
           ProcessItem.FeedItem.ID := gofeed.GUID item;
           ProcessItem.FeedItem.Updated := gofeed.Updated item;
           ProcessItem.FeedItem.Link := gofeed.Link item;
           ProcessItem.FeedItem.Title := gofeed.Title item;
           ProcessItem.FeedItem.Content := gofeed.Content item |}.
Proof. reflexivity. Qed.

(** X11.  Once [processItem] has succeeded on the message dispatched for
    an entry, no later invocation of [processChannel], on any platform
    and feed, publishes a message with that identifier, whatever the
    other fields of the entry have become. *)
Theorem no_second_dispatch (lib : md.Library) (ienv : ProcessItem.Env)
    (cenv : ProcessChannel.Env) (notifyURL : string) (entry : gofeed.Item)
    (w : World) (e : Event) (evs : list Effect) (data : Bytes)
    (received : ProcessItem.FeedItem.t) :
  let dispatched :=
    {| DataAs := inr {| Message :=
         {| Data := ProcessChannel.wire notifyURL entry |} |} |} in
  let w1 := snd (ProcessItem.processItem lib ienv dispatched w) in
  fst (ProcessItem.processItem lib ienv dispatched w) = inr () →
  trace (snd (ProcessChannel.processChannel cenv e w1)) = (trace w1 ++ evs)%list →
  CallPublish data ∈ evs →
  ProcessItem.Unmarshal data = inr received →
  ProcessItem.FeedItem.ID received ≠ gofeed.GUID entry.
Proof.
  intros dispatched w1 Hok Hevs Hin Hreceived.
  destruct (processItem_success lib ienv dispatched _ _ w eq_refl eq_refl Hok)
    as [_ Hstore].
  fold w1 in Hstore. cbn [ProcessItem.FeedItem.ID member fold_left fst snd
                           String.eqb Ascii.eqb Bool.eqb] in Hstore.
  assert (Hseen : is_Some (store w1 !! gofeed.GUID entry)).
  { rewrite Hstore, lookup_insert_eq. eauto. }
  clearbody w1. clear Hstore Hok.
  unfold ProcessChannel.processChannel, bind, wrap, lift, discard, ret in Hevs.
  destruct (DataAs e) as [err|msg].
  { cbn in Hevs. rewrite <- (app_nil_r (trace w1)) in Hevs at 1.
    apply app_inv_head in Hevs. subst evs. by apply elem_of_nil in Hin. }
  destruct (ProcessChannel.Unmarshal _) as [err|channelConfig].
  { cbn in Hevs. rewrite <- (app_nil_r (trace w1)) in Hevs at 1.
    apply app_inv_head in Hevs. subst evs. by apply elem_of_nil in Hin. }
  destruct (ProcessChannel.ParseURL cenv _) as [err|feed].
  { cbn in Hevs. rewrite <- (app_nil_r (trace w1)) in Hevs at 1.
    apply app_inv_head in Hevs. subst evs. by apply elem_of_nil in Hin. }
  destruct (removeOldItems_outcome cenv (gofeed.Items feed) w1)
    as [(err & w2 & Hrun)|(out & Hrun & Hout)].
  { destruct (removeOldItems_run cenv (gofeed.Items feed) w1)
      as [[err' Hrun']|[r Hrun']]; rewrite Hrun' in Hrun, Hevs;
      injection Hrun as -> <-; cbn [fst snd] in Hevs.
    - rewrite <- (app_nil_r (trace w1)) in Hevs at 1.
      apply app_inv_head in Hevs. subst evs. by apply elem_of_nil in Hin.
    - cbn in Hevs. apply app_inv_head in Hevs. subst evs.
      apply list_elem_of_singleton in Hin. discriminate Hin. }
  rewrite Hrun in Hevs. cbn [fst snd] in Hevs.
  destruct (publishItem_world cenv
              (ProcessChannel.ChannelConfig.NotifyURL channelConfig) out
              (emit (CallGetAll (gofeed.GUID <$> gofeed.Items feed)) w1))
    as (_ & sent & Hsent & Ht).
  rewrite Ht in Hevs. cbn [emit trace] in Hevs.
  rewrite <- app_assoc in Hevs. apply app_inv_head in Hevs. subst evs.
  apply elem_of_cons in Hin as [[=]|Hin].
  apply list_elem_of_fmap in Hin as (data' & [= ->] & Hin).
  apply list_elem_of_fmap in Hin as (it & -> & Hin).
  destruct Hsent as [-> | ->]; [by apply elem_of_nil in Hin|].
  destruct (Hout it Hin) as [_ Hnone].
  rewrite Unmarshal_wire in Hreceived. injection Hreceived as <-.
  cbn [ProcessItem.FeedItem.ID]. intros Heq. rewrite Heq in Hnone.
  destruct Hseen as [doc Hdoc]. congruence.
Qed.

Lemma no_second_dispatch_witness :
  ProcessItem.FeedItem.ID
    {| ProcessItem.FeedItem.NotifyURL := "https://chat.example.org/hook";
       ProcessItem.FeedItem.Feed := "";
       ProcessItem.FeedItem.ID := "B";
       ProcessItem.FeedItem.Updated := "";
       ProcessItem.FeedItem.Link := "https://example.org/B";
       ProcessItem.FeedItem.Title := "b";
       ProcessItem.FeedItem.Content := "" |}
  ≠ gofeed.GUID (entry "A" "a").
Proof.
  apply (no_second_dispatch plain (webhook 200)
           (healthy [entry "A" "a"; entry "B" "b"])
           "https://chat.example.org/hook" (entry "A" "a") nothing
           channel_event
           [CallGetAll ["A"; "B"];
            CallPublish (ProcessChannel.wire "https://chat.example.org/hook"
                           (entry "B" "b"))]
           (ProcessChannel.wire "https://chat.example.org/hook" (entry "B" "b")));
    [vm_compute; reflexivity | vm_compute; reflexivity | by right; left
    | reflexivity].
Defined.

End PipelineProperties.
